(** * Medical chat front end and tool layer: a shallow embedding

    The development follows the repository's layout:

    - [JsString]      the string built-ins the React code relies on
                      ([trim], [toLowerCase], [includes], truthiness);
    - [Effects]       a state-and-exception monad for [async] functions with
                      [try]/[catch]/[finally];
    - [Axios], [Api]  [frontend/src/services/api.js] (the axios client);
    - [ChatInterface] [frontend/src/components/ChatInterface.js];
    - [MedicalTools]  the extraction and diagnosis tools of the Python back
                      end, whose source is not part of the tree and which are
                      therefore modelled from the specification;
    - [ApiOps], [Trace], [Examples]
                      the vocabulary of the statements: the service layer as
                      one family of operations, what a run of a handler
                      issues and leaves, and concrete environments.

    Lemmas about the models come next, the claims C1-C10 last. *)

From Stdlib Require Import ZArith Ascii String List Bool Lia DecimalString.
From stdpp Require Import base option list strings gmap.

Set Warnings "-register-all".
Local Open Scope string_scope.
Local Open Scope list_scope.

(* ===================================================================== *)
(** ** JavaScript strings *)
(* ===================================================================== *)

(** Strings are sequences of code units; the model covers the code units
    below 256, one [ascii] each. *)
Module JsString.

(** [WhiteSpace] and [LineTerminator] code units below 256: TAB, LF, VT,
    FF, CR, SPACE and NBSP. *)
Definition isWhiteSpace (c : ascii) : bool :=
  let n := nat_of_ascii c in
  (9 <=? n)%nat && (n <=? 13)%nat || (n =? 32)%nat || (n =? 160)%nat.

(** [String.prototype.trimStart] *)
Fixpoint trimStart (s : string) : string :=
  match s with
  | EmptyString => EmptyString
  | String c s' => if isWhiteSpace c then trimStart s' else s
  end.

(** [String.prototype.trimEnd] *)
Fixpoint trimEnd (s : string) : string :=
  match s with
  | EmptyString => EmptyString
  | String c s' =>
      match trimEnd s' with
      | EmptyString => if isWhiteSpace c then EmptyString else String c EmptyString
      | t => String c t
      end
  end.

(** [String.prototype.trim] *)
Definition trim (s : string) : string := trimEnd (trimStart s).

(** ToBoolean on a string: only the empty string is falsy. *)
Definition truthy (s : string) : bool :=
  match s with EmptyString => false | _ => true end.

(** Lower-casing of one code unit: A-Z, and the Latin-1 capitals
    (0xC0-0xDE except the multiplication sign 0xD7). *)
Definition lowerChar (c : ascii) : ascii :=
  let n := nat_of_ascii c in
  if (65 <=? n)%nat && (n <=? 90)%nat then ascii_of_nat (n + 32)
  else if (192 <=? n)%nat && (n <=? 222)%nat && negb (n =? 215)%nat
       then ascii_of_nat (n + 32)
  else c.

(** [String.prototype.toLowerCase] *)
Fixpoint toLowerCase (s : string) : string :=
  match s with
  | EmptyString => EmptyString
  | String c s' => String (lowerChar c) (toLowerCase s')
  end.

(** [String.prototype.startsWith] *)
Fixpoint startsWith (needle hay : string) : bool :=
  match needle, hay with
  | EmptyString, _ => true
  | String a n', String b h' => if Ascii.eqb a b then startsWith n' h' else false
  | String _ _, EmptyString => false
  end.

(** [String.prototype.includes]: the needle starts at some position. *)
Fixpoint includes (needle hay : string) : bool :=
  startsWith needle hay ||
  match hay with
  | EmptyString => false
  | String _ h' => includes needle h'
  end.

End JsString.

(* ===================================================================== *)
(** ** Effects: state, exceptions, [try]/[catch]/[finally] *)
(* ===================================================================== *)

Module Effects.

(** Completion of a function body: a value, or a thrown exception. *)
Inductive Result (E A : Type) : Type :=
| Return (a : A)
| Throw (e : E).
Arguments Return {E A} a.
Arguments Throw {E A} e.

(** A computation over a store [S] that may throw an [E]. *)
Definition Eff (S E A : Type) : Type := S -> Result E A * S.

Section Ops.
Context {S : Type}.

Definition ret {E A} (a : A) : Eff S E A := fun s => (Return a, s).

Definition throw {E A} (e : E) : Eff S E A := fun s => (Throw e, s).

Definition bind {E A B} (c : Eff S E A) (k : A -> Eff S E B) : Eff S E B :=
  fun s =>
    match c s with
    | (Return a, s') => k a s'
    | (Throw e, s') => (Throw e, s')
    end.

Definition get {E} : Eff S E S := fun s => (Return s, s).

Definition modify {E} (f : S -> S) : Eff S E unit := fun s => (Return tt, f s).

(** [try { body } catch (e) { handler e }] *)
Definition try_catch {E E' A} (body : Eff S E A) (handler : E -> Eff S E' A)
  : Eff S E' A :=
  fun s =>
    match body s with
    | (Return a, s') => (Return a, s')
    | (Throw e, s') => handler e s'
    end.

(** [try { body } finally { fin }]: [fin] runs on both exits, and an
    exception of [fin] replaces the completion of [body]. *)
Definition try_finally {E A} (body : Eff S E A) (fin : Eff S E unit)
  : Eff S E A :=
  fun s =>
    match body s with
    | (r, s') =>
        match fin s' with
        | (Return _, s'') => (r, s'')
        | (Throw e, s'') => (Throw e, s'')
        end
    end.
End Ops.

(** Running a computation on a component of a larger store. *)
Definition lift {S T E A} (proj : T -> S) (inj : S -> T -> T)
           (c : Eff S E A) : Eff T E A :=
  fun t => match c (proj t) with (r, s') => (r, inj s' t) end.

Declare Scope eff_scope.
Delimit Scope eff_scope with eff.
Notation "x <- c ;; k" := (bind c (fun x => k))
  (at level 100, c at level 50, k at level 200, right associativity) : eff_scope.
Notation "c ;;; k" := (bind c (fun _ => k))
  (at level 100, k at level 200, right associativity) : eff_scope.

End Effects.

(* ===================================================================== *)
(** ** [frontend/src/services/api.js] *)
(* ===================================================================== *)

(** JSON values carried by requests and responses. *)
Inductive Json : Type :=
| JNull
| JBool (b : bool)
| JNum (z : Z)
| JStr (s : string)
| JArr (l : list Json)
| JObj (l : list (string * Json)).

(** The part of axios the client uses. *)
Module Axios.

Inductive Method := GET | POST | DELETE.

(** Instance defaults ([axios.create]) and per-request options share one
    shape; an unset [timeout] is axios' default 0, "no timeout". *)
Record Config := {
  baseURL : option string;
  headers : list (string * string);
  timeout : option Z
}.

(** What the client asks of axios in one call, once the options are
    merged with the instance defaults: method, full URL, body and
    timeout.  The headers axios finally sends (its own defaults added,
    [Content-Type] dropped from a request without a body) are the
    library's business and are not part of the record. *)
Record Request := {
  req_method : Method;
  req_url : string;
  req_data : option (gmap string Json);
  req_timeout : option Z
}.

(** What reading [error.response.data.error] gives: the value of the
    property ([None]: the body has no such property), or, when the body
    is [null] or [undefined], the TypeError the read raises, with the
    message the engine gives it. *)
Inductive ErrorDetail :=
| Detail (error : option string)
| Unreadable (type_error : string).

(** An error response: [error.response.status] and the reading of
    [error.response.data.error]. *)
Record ErrorResponse := {
  status : Z;
  data_error : ErrorDetail
}.

(** The rejection value: [error.message], and [error.response] when the
    server answered. *)
Record Error := {
  message : string;
  response : option ErrorResponse
}.

Inductive Outcome (D : Type) : Type :=
| Fulfilled (data : D)
| Rejected (error : Error).
Arguments Fulfilled {D} data.
Arguments Rejected {D} error.

(** Request options override instance defaults field by field. *)
Definition mergeConfig (inst opts : Config) : Config :=
  {| baseURL := match baseURL opts with Some b => Some b | None => baseURL inst end;
     headers := headers inst ++ headers opts;
     timeout := match timeout opts with Some t => Some t | None => timeout inst end |}.

Definition noOptions : Config :=
  {| baseURL := None; headers := []; timeout := None |}.

Definition buildRequest (inst : Config) (m : Method) (path : string)
           (body : option (gmap string Json)) (opts : Config) : Request :=
  let cfg := mergeConfig inst opts in
  {| req_method := m;
     req_url := match baseURL cfg with Some b => b +:+ path | None => path end;
     req_data := body;
     req_timeout := timeout cfg |}.

End Axios.

(** The world outside the component: the random and clock sources already
    consumed, the requests issued so far, [alert] dialogs shown and timers
    armed with [setTimeout] (delay in milliseconds). *)
Record World := {
  uuid_count : nat;
  date_count : nat;
  requests : list Axios.Request;
  alerts : list string;
  timers : list Z
}.

(** Modelled from the spec: the response bodies of the back end
    ([backend/flask_backend.py] is not part of the tree).  Section 6 gives a
    chat turn the output "response text, agent used, session id" and the
    transcription service "plain transcribed text". *)
Record ChatResponse := {
  response : string;
  agent_used : string;
  session_id : string
}.

Record TranscriptionResponse := {
  transcription : string
}.

(** The back end as the client sees it: for the requests issued before and
    the request at hand, how the promise settles.  The bodies of the other
    endpoints are passed through by the client uninspected. *)
Record Server := {
  serve_chat : list Axios.Request -> Axios.Request -> Axios.Outcome ChatResponse;
  serve_transcription :
    list Axios.Request -> Axios.Request -> Axios.Outcome TranscriptionResponse;
  serve_json : list Axios.Request -> Axios.Request -> Axios.Outcome Json
}.

Module Api.
Import Effects JsString.
Local Open Scope eff_scope.

(** [new Error(message)] *)
Record Error := { message : string }.

Definition API_BASE_URL : string := "http://localhost:5000".

(** [axios.create({ baseURL, headers })]: no timeout is configured. *)
Definition api : Axios.Config :=
  {| Axios.baseURL := Some API_BASE_URL;
     Axios.headers := [("Content-Type", "application/json")];
     Axios.timeout := None |}.

(** [a || b] on a possibly undefined string. *)
Definition or_else (a : option string) (b : string) : string :=
  match a with
  | Some s => if truthy s then s else b
  | None => b
  end.

(** Evaluating [error.response.data.error] inside a [catch]: the TypeError
    of a body that is [null] or [undefined] leaves the [catch] as it is. *)
Definition read_detail (resp : Axios.ErrorResponse)
  : Eff World Error (option string) :=
  match Axios.data_error resp with
  | Axios.Detail detail => ret detail
  | Axios.Unreadable type_error => throw {| message := type_error |}
  end.

Definition log_request (r : Axios.Request) (w : World) : World :=
  {| uuid_count := uuid_count w; date_count := date_count w;
     requests := requests w ++ [r]; alerts := alerts w; timers := timers w |}.

(** Issue a request and await it. *)
Definition send {D} (serve : list Axios.Request -> Axios.Request -> Axios.Outcome D)
           (r : Axios.Request) : Eff World Axios.Error D :=
  fun w =>
    match serve (requests w) r with
    | Axios.Fulfilled d => (Return d, log_request r w)
    | Axios.Rejected e => (Throw e, log_request r w)
    end.

Definition api_get {D} serve (path : string) : Eff World Axios.Error D :=
  send serve (Axios.buildRequest api Axios.GET path None Axios.noOptions).

Definition api_post {D} serve (path : string) (payload : gmap string Json)
           (opts : Axios.Config) : Eff World Axios.Error D :=
  send serve (Axios.buildRequest api Axios.POST path (Some payload) opts).

Definition api_delete {D} serve (path : string) : Eff World Axios.Error D :=
  send serve (Axios.buildRequest api Axios.DELETE path None Axios.noOptions).

Section ApiService.
Variable server : Server.

Definition healthCheck : Eff World Error Json :=
  try_catch
    (response <- api_get (serve_json server) "/health" ;;
     ret response)
    (fun error =>
       throw {| message := "Health check failed: " +:+ Axios.message error |}).

(** The payload of [sendChatMessage]: [{ message }], and [session_id]
    under [if (sessionId)]; [None] is [null]. *)
Definition chatPayload (message_ : string) (sessionId : option string)
  : gmap string Json :=
  let payload : gmap string Json := {[ "message" := JStr message_ ]} in
  match sessionId with
  | Some sid =>
      if truthy sid then <[ "session_id" := JStr sid ]> payload else payload
  | None => payload
  end.

Definition sendChatMessage (message_ : string) (sessionId : option string)
  : Eff World Error ChatResponse :=
  try_catch
    (let payload := chatPayload message_ sessionId in
     response <- api_post (serve_chat server) "/api/chat" payload Axios.noOptions ;;
     ret response)
    (fun error =>
       match Axios.response error with
       | Some resp =>
           detail <- read_detail resp ;;
           throw {| message := "Chat request failed: " +:+ or_else detail (Axios.message error) |}
       | None =>
           throw {| message := "Network error: " +:+ Axios.message error |}
       end).

Definition extractMedicalInfo (text : string) : Eff World Error Json :=
  try_catch
    (response <- api_post (serve_json server) "/api/extract"
                   {[ "text" := JStr text ]} Axios.noOptions ;;
     ret response)
    (fun error =>
       match Axios.response error with
       | Some resp =>
           detail <- read_detail resp ;;
           throw {| message := "Extraction failed: " +:+ or_else detail (Axios.message error) |}
       | None =>
           throw {| message := "Network error: " +:+ Axios.message error |}
       end).

Definition generateDiagnosis (structuredInfo : Json) : Eff World Error Json :=
  try_catch
    (response <- api_post (serve_json server) "/api/diagnose"
                   {[ "structured_info" := structuredInfo ]} Axios.noOptions ;;
     ret response)
    (fun error =>
       match Axios.response error with
       | Some resp =>
           detail <- read_detail resp ;;
           throw {| message := "Diagnosis generation failed: " +:+ or_else detail (Axios.message error) |}
       | None =>
           throw {| message := "Network error: " +:+ Axios.message error |}
       end).

Definition getSessions : Eff World Error Json :=
  try_catch
    (response <- api_get (serve_json server) "/api/sessions" ;;
     ret response)
    (fun error =>
       throw {| message := "Failed to get sessions: " +:+ Axios.message error |}).

Definition deleteSession (sessionId : string) : Eff World Error Json :=
  try_catch
    (response <- api_delete (serve_json server) ("/api/sessions/" +:+ sessionId) ;;
     ret response)
    (fun error =>
       match Axios.response error with
       | Some resp =>
           detail <- read_detail resp ;;
           throw {| message := "Failed to delete session: " +:+ or_else detail (Axios.message error) |}
       | None =>
           throw {| message := "Network error: " +:+ Axios.message error |}
       end).

Definition transcribeAudioFromUrl (audioUrl : string) : Eff World Error string :=
  try_catch
    (response <- api_post (serve_transcription server) "/api/transcribe-url"
                   {[ "audio_url" := JStr audioUrl ]}
                   {| Axios.baseURL := None; Axios.headers := [];
                      Axios.timeout := Some 120000%Z |} ;;
     ret (transcription response))
    (fun error =>
       match Axios.response error with
       | Some resp =>
           detail <- read_detail resp ;;
           throw {| message := "Audio transcription failed: " +:+ or_else detail (Axios.message error) |}
       | None =>
           throw {| message := "Network error: " +:+ Axios.message error |}
       end).

Definition getStatus : Eff World Error Json :=
  try_catch
    (response <- api_get (serve_json server) "/api/status" ;;
     ret response)
    (fun error =>
       throw {| message := "Failed to get system status: " +:+ Axios.message error |}).

End ApiService.

End Api.

(* ===================================================================== *)
(** ** [frontend/src/components/ChatInterface.js] *)
(* ===================================================================== *)

(** Entries of the transcript. *)
Module Msg.

Inductive MessageType := user | ai | system | error.

Record Message := {
  id : string;
  type : MessageType;
  content : string;
  agentUsed : option string;
  timestamp : Z;
  sessionId : option string
}.

Definition type_eqb (a b : MessageType) : bool :=
  match a, b with
  | user, user | ai, ai | system, system | error, error => true
  | _, _ => false
  end.

(** [msg => msg.id !== other] *)
Definition id_differs (other : string) (msg : Message) : bool :=
  negb (String.eqb (id msg) other).

(** [msg => msg.type !== 'system'] *)
Definition not_system (msg : Message) : bool :=
  negb (type_eqb (type msg) system).

End Msg.

(** Handlers are run to completion, one at a time.  [console.error] and
    [inputRef.current?.focus()] leave the modelled state alone and are left
    out. *)
Module ChatInterface.
Import Effects JsString.
Local Open Scope eff_scope.

(** The [useState] cells of the component. *)
Record State := {
  messages : list Msg.Message;
  inputMessage : string;
  isLoading : bool;
  isProcessingAudio : bool;
  showAudioUrlModal : bool;
  audioUrl : string;
  notification : option string;
  sessionId : string
}.

(** The component's cells together with the world around it. *)
Record Sys := {
  state : State;
  world : World
}.

(** Handlers catch what they await, so they run in [Comp]. *)
Definition Comp (A : Type) : Type := Eff Sys Api.Error A.

Definition on_state (f : State -> State) : Comp unit :=
  modify (fun sys => {| state := f (state sys); world := world sys |}).

Definition on_world (f : World -> World) : Comp unit :=
  modify (fun sys => {| state := state sys; world := f (world sys) |}).

(** State setters; [setMessages] takes the functional updater. *)
Definition setMessages (f : list Msg.Message -> list Msg.Message) : Comp unit :=
  on_state (fun st =>
    {| messages := f (messages st); inputMessage := inputMessage st;
       isLoading := isLoading st; isProcessingAudio := isProcessingAudio st;
       showAudioUrlModal := showAudioUrlModal st; audioUrl := audioUrl st;
       notification := notification st; sessionId := sessionId st |}).

Definition setInputMessage (v : string) : Comp unit :=
  on_state (fun st =>
    {| messages := messages st; inputMessage := v;
       isLoading := isLoading st; isProcessingAudio := isProcessingAudio st;
       showAudioUrlModal := showAudioUrlModal st; audioUrl := audioUrl st;
       notification := notification st; sessionId := sessionId st |}).

Definition setIsLoading (v : bool) : Comp unit :=
  on_state (fun st =>
    {| messages := messages st; inputMessage := inputMessage st;
       isLoading := v; isProcessingAudio := isProcessingAudio st;
       showAudioUrlModal := showAudioUrlModal st; audioUrl := audioUrl st;
       notification := notification st; sessionId := sessionId st |}).

Definition setIsProcessingAudio (v : bool) : Comp unit :=
  on_state (fun st =>
    {| messages := messages st; inputMessage := inputMessage st;
       isLoading := isLoading st; isProcessingAudio := v;
       showAudioUrlModal := showAudioUrlModal st; audioUrl := audioUrl st;
       notification := notification st; sessionId := sessionId st |}).

Definition setShowAudioUrlModal (v : bool) : Comp unit :=
  on_state (fun st =>
    {| messages := messages st; inputMessage := inputMessage st;
       isLoading := isLoading st; isProcessingAudio := isProcessingAudio st;
       showAudioUrlModal := v; audioUrl := audioUrl st;
       notification := notification st; sessionId := sessionId st |}).

Definition setAudioUrl (v : string) : Comp unit :=
  on_state (fun st =>
    {| messages := messages st; inputMessage := inputMessage st;
       isLoading := isLoading st; isProcessingAudio := isProcessingAudio st;
       showAudioUrlModal := showAudioUrlModal st; audioUrl := v;
       notification := notification st; sessionId := sessionId st |}).

Definition setNotification (v : option string) : Comp unit :=
  on_state (fun st =>
    {| messages := messages st; inputMessage := inputMessage st;
       isLoading := isLoading st; isProcessingAudio := isProcessingAudio st;
       showAudioUrlModal := showAudioUrlModal st; audioUrl := audioUrl st;
       notification := v; sessionId := sessionId st |}).

(** [alert(text)] and [setTimeout(_, delay)] *)
Definition alert (text : string) : Comp unit :=
  on_world (fun w =>
    {| uuid_count := uuid_count w; date_count := date_count w;
       requests := requests w; alerts := alerts w ++ [text]; timers := timers w |}).

Definition setTimeout (delay : Z) : Comp unit :=
  on_world (fun w =>
    {| uuid_count := uuid_count w; date_count := date_count w;
       requests := requests w; alerts := alerts w; timers := timers w ++ [delay] |}).

(** Awaiting a function of the service layer. *)
Definition await {A} (c : Eff World Api.Error A) : Comp A :=
  lift world (fun w sys => {| state := state sys; world := w |}) c.

Section Component.
(** The environment: the back end, the k-th value drawn from [uuidv4()],
    the k-th reading of [new Date()], and the [URL] constructor
    ([Some pathname], or [None] when it throws). *)
Variable server : Server.
Variable uuid_of : nat -> string.
Variable date_of : nat -> Z.
Variable URL_pathname : string -> option string.

Definition uuidv4 : Comp string :=
  fun sys =>
    let w := world sys in
    (Return (uuid_of (uuid_count w)),
     {| state := state sys;
        world := {| uuid_count := S (uuid_count w); date_count := date_count w;
                    requests := requests w; alerts := alerts w;
                    timers := timers w |} |}).

Definition Date_new : Comp Z :=
  fun sys =>
    let w := world sys in
    (Return (date_of (date_count w)),
     {| state := state sys;
        world := {| uuid_count := uuid_count w; date_count := S (date_count w);
                    requests := requests w; alerts := alerts w;
                    timers := timers w |} |}).

(** The timer clears the notification three seconds later; only its
    arming belongs to the call. *)
Definition showNotification (message_ : string) : Comp unit :=
  setNotification (Some message_) ;;;
  setTimeout 3000.

Definition handleSendMessage : Comp unit :=
  render <- get ;;
  let inputMessage := inputMessage (state render) in
  if negb (truthy (trim inputMessage)) || isLoading (state render) then ret tt
  else
    uid <- uuidv4 ;;
    now <- Date_new ;;
    let userMessage :=
      {| Msg.id := uid; Msg.type := Msg.user; Msg.content := trim inputMessage;
         Msg.agentUsed := None; Msg.timestamp := now; Msg.sessionId := None |} in
    setMessages (fun prev => prev ++ [userMessage]) ;;;
    setInputMessage "" ;;;
    setIsLoading true ;;;
    try_finally
      (try_catch
         (reply <- await (Api.sendChatMessage server (Msg.content userMessage)
                               (Some (sessionId (state render)))) ;;
          aid <- uuidv4 ;;
          now' <- Date_new ;;
          let aiMessage :=
            {| Msg.id := aid; Msg.type := Msg.ai;
               Msg.content := response reply;
               Msg.agentUsed := Some (agent_used reply);
               Msg.timestamp := now';
               Msg.sessionId := Some (session_id reply) |} in
          setMessages (fun prev => prev ++ [aiMessage]))
         (fun error =>
            eid <- uuidv4 ;;
            now' <- Date_new ;;
            let errorMessage :=
              {| Msg.id := eid; Msg.type := Msg.error;
                 Msg.content := "Error: " +:+ Api.message error;
                 Msg.agentUsed := None; Msg.timestamp := now';
                 Msg.sessionId := None |} in
            setMessages (fun prev => prev ++ [errorMessage])))
      (setIsLoading false).

Definition clearChat : Comp unit := setMessages (fun _ => []).

Definition audioExtensions : list string :=
  ["mp3"; "wav"; "m4a"; "ogg"; "flac"; "aac"].

Definition validateAudioUrl (url : string) : bool :=
  match URL_pathname url with
  | Some pathname =>
      let urlPath := toLowerCase pathname in
      existsb (fun ext => includes ("." +:+ ext) urlPath) audioExtensions
  | None => false
  end.

(** The [try] block of [handleAudioUrlSubmit]. *)
Definition audioSubmitBody (audioUrl : string) (sessionId : string) : Comp unit :=
  pid <- uuidv4 ;;
  now <- Date_new ;;
  let processingMessage :=
    {| Msg.id := pid; Msg.type := Msg.system;
       Msg.content := "Processing audio from URL: " +:+ audioUrl +:+ "...";
       Msg.agentUsed := None; Msg.timestamp := now; Msg.sessionId := None |} in
  setMessages (fun prev => prev ++ [processingMessage]) ;;;
  transcribedText <- await (Api.transcribeAudioFromUrl server audioUrl) ;;
  setMessages (fun prev =>
    List.filter (Msg.id_differs (Msg.id processingMessage)) prev) ;;;
  showNotification "Transcription completed" ;;;
  uid <- uuidv4 ;;
  now' <- Date_new ;;
  let userMessage :=
    {| Msg.id := uid; Msg.type := Msg.user; Msg.content := transcribedText;
       Msg.agentUsed := None; Msg.timestamp := now'; Msg.sessionId := None |} in
  setMessages (fun prev => prev ++ [userMessage]) ;;;
  setIsLoading true ;;;
  reply <- await (Api.sendChatMessage server transcribedText (Some sessionId)) ;;
  aid <- uuidv4 ;;
  now'' <- Date_new ;;
  let aiMessage :=
    {| Msg.id := aid; Msg.type := Msg.ai;
       Msg.content := response reply;
       Msg.agentUsed := Some (agent_used reply);
       Msg.timestamp := now'';
       Msg.sessionId := Some (session_id reply) |} in
  setMessages (fun prev => prev ++ [aiMessage]).

(** The [catch] block of [handleAudioUrlSubmit]. *)
Definition audioSubmitCatch (error : Api.Error) : Comp unit :=
  setMessages (fun prev => List.filter Msg.not_system prev) ;;;
  eid <- uuidv4 ;;
  now <- Date_new ;;
  let errorMessage :=
    {| Msg.id := eid; Msg.type := Msg.error;
       Msg.content := "Error transcribing audio: " +:+ Api.message error;
       Msg.agentUsed := None; Msg.timestamp := now; Msg.sessionId := None |} in
  setMessages (fun prev => prev ++ [errorMessage]).

(** The [finally] block of [handleAudioUrlSubmit]. *)
Definition audioSubmitFinally : Comp unit :=
  setIsProcessingAudio false ;;;
  setIsLoading false ;;;
  setAudioUrl "".

Definition handleAudioUrlSubmit : Comp unit :=
  render <- get ;;
  let audioUrl := audioUrl (state render) in
  if negb (truthy (trim audioUrl)) then alert "Please enter an audio URL"
  else if negb (validateAudioUrl audioUrl) then
    alert "Please enter a valid audio URL (MP3, WAV, M4A, OGG, FLAC, AAC)"
  else
    setIsProcessingAudio true ;;;
    setShowAudioUrlModal false ;;;
    try_finally
      (try_catch (audioSubmitBody audioUrl (sessionId (state render)))
                 audioSubmitCatch)
      audioSubmitFinally.

End Component.

End ChatInterface.

(* ===================================================================== *)
(** ** The extraction and diagnosis tools *)
(* ===================================================================== *)

(** [backend/medical_extraction_system.py] is not part of the tree; the
    README gives the Pydantic shapes and the specification (sections 3, 4.4
    and 7) the post-processing. *)
Module MedicalTools.
Import Effects.
Local Open Scope eff_scope.

(** A field value: [Optional[str]] or [Optional[int]] once populated. *)
Inductive Value := VStr (s : string) | VInt (n : Z).

(** Modelled from the spec: the explicit "not provided" sentinel of
    section 3, spelled as in the README's "Smart Defaults". *)
Definition NOT_PROVIDED : Value := VStr "Not provided".

(** [PatientIdentification] of the README, by field name. *)
Definition patient_fields : list string :=
  ["name"; "age"; "identification_number"; "gender"; "phone"; "address"].

(** What the reasoning service answers to the extraction prompt: a field
    it omits is absent from [raw_patient_info]. *)
Record RawExtraction := {
  raw_symptoms : list string;
  raw_patient_info : gmap string Value;
  raw_reason_for_consultation : string
}.

(** [MedicalExtraction] of the README. *)
Record MedicalExtraction := {
  symptoms : list string;
  patient_info : gmap string Value;
  reason_for_consultation : string
}.

Inductive Gender := Male | Female.

Definition gender_eqb (a b : Gender) : bool :=
  match a, b with
  | Male, Male | Female, Female => true
  | _, _ => false
  end.

Definition gender_value (g : Gender) : Value :=
  match g with Male => VStr "Male" | Female => VStr "Female" end.

(** Transient failures are retried, permanent ones are not (section 6). *)
Inductive ServiceFailure := Transient | Permanent.

(** Section 7's taxonomy, as far as the tools raise it. *)
Inductive ToolError :=
| ValidationError (issue : string)
| ExternalServiceError (operation : string).

(** One call of the external reasoning service. *)
Inductive ServiceCall :=
| ExtractionPrompt (text : string)
| DiagnosisPrompt (extraction : MedicalExtraction).

(** Modelled from the spec: the first name is the name up to its first
    space ("recognizable first name", section 8). *)
Fixpoint first_name (name : string) : string :=
  match name with
  | EmptyString => EmptyString
  | String c rest =>
      if Ascii.eqb c " "%char then EmptyString else String c (first_name rest)
  end.

Section Tools.
(** The name->gender heuristic table is pluggable (section 9): a name
    listed with both genders is unisex, a name not listed is foreign.
    The reasoning service is not deterministic: its answer depends on
    the number of calls made before. *)
Variable table : list (string * Gender).
Variable reason_extract : nat -> string -> ServiceFailure + RawExtraction.
Variable reason_diagnose : nat -> MedicalExtraction -> ServiceFailure + string.

Definition candidates (first : string) : list Gender :=
  List.map snd (List.filter (fun e => String.eqb (fst e) first) table).

(** Modelled from the spec: the gender inference rule of section 4.4,
    "infer from name using a name->gender heuristic table (fails soft
    ... on ambiguous/foreign/unisex names)". *)
Definition infer_gender (name : string) : option Gender :=
  match candidates (first_name name) with
  | [] => None
  | g :: rest => if forallb (gender_eqb g) rest then Some g else None
  end.


Definition field_or_sentinel (raw : gmap string Value) (f : string) : Value :=
  match raw !! f with
  | Some v => v
  | None => NOT_PROVIDED
  end.

(** Modelled from the spec: "if gender is absent and a name is present
    and unambiguous, infer from name"; otherwise the sentinel.  A gender
    the service supplies (the README's extraction prompt asks it to
    infer one) is kept as it is. *)
Definition gender_field (raw : gmap string Value) : Value :=
  match raw !! "gender" with
  | Some v => v
  | None =>
      match raw !! "name" with
      | Some (VStr name) =>
          match infer_gender name with
          | Some g => gender_value g
          | None => NOT_PROVIDED
          end
      | _ => NOT_PROVIDED
      end
  end.

(** Modelled from the spec: "all six PatientIdentification fields must
    be populated with either a real value or the sentinel before
    returning - if the reasoning service omits a field, the tool injects
    the sentinel locally". *)
Definition complete_patient_info (raw : gmap string Value) : gmap string Value :=
  <[ "gender" := gender_field raw ]>
    (foldr (fun f acc => <[ f := field_or_sentinel raw f ]> acc) ∅ patient_fields).

Definition postprocess (raw : RawExtraction) : MedicalExtraction :=
  {| symptoms := raw_symptoms raw;
     patient_info := complete_patient_info (raw_patient_info raw);
     reason_for_consultation := raw_reason_for_consultation raw |}.

(** The store of the tools is the log of service calls. *)
Definition Tool (A : Type) : Type := Eff (list ServiceCall) ToolError A.

Definition ask_extraction (text : string)
  : Eff (list ServiceCall) ServiceFailure RawExtraction :=
  fun log =>
    match reason_extract (length log) text with
    | inr raw => (Return raw, log ++ [ExtractionPrompt text])
    | inl f => (Throw f, log ++ [ExtractionPrompt text])
    end.

Definition ask_diagnosis (e : MedicalExtraction)
  : Eff (list ServiceCall) ServiceFailure string :=
  fun log =>
    match reason_diagnose (length log) e with
    | inr d => (Return d, log ++ [DiagnosisPrompt e])
    | inl f => (Throw f, log ++ [DiagnosisPrompt e])
    end.

(** Modelled from the spec: the error policy of section 4.4, "retry the
    external call once on transient/network-class failure ..., then
    surface a typed ExternalServiceError". *)
Definition with_retry {A} (operation : string)
           (call : Eff (list ServiceCall) ServiceFailure A) : Tool A :=
  try_catch call
    (fun f =>
       match f with
       | Transient =>
           try_catch call (fun _ => throw (ExternalServiceError operation))
       | Permanent => throw (ExternalServiceError operation)
       end).

(** The answer of the reasoning service that an extraction started
    after [log] works from, if it obtains one. *)
Definition extraction_answer (text : string) (log : list ServiceCall)
  : option RawExtraction :=
  match fst (with_retry "extract" (ask_extraction text) log) with
  | Return raw => Some raw
  | Throw _ => None
  end.

(** Modelled from the spec: [extract(text) -> MedicalExtraction]. *)
Definition extract (text : string) : Tool MedicalExtraction :=
  raw <- with_retry "extract" (ask_extraction text) ;;
  ret (postprocess raw).

(** Modelled from the spec: [diagnose(extraction) -> DiagnosisResult],
    "if symptoms are empty, returns a ValidationError result rather than
    calling the external service". *)
Definition diagnose (e : MedicalExtraction) : Tool string :=
  match symptoms e with
  | [] => throw (ValidationError "symptoms must not be empty")
  | _ :: _ => with_retry "diagnose" (ask_diagnosis e)
  end.

End Tools.

End MedicalTools.

(* ===================================================================== *)
(** ** The service layer as one family of operations *)
(* ===================================================================== *)

Module ApiOps.
Import Effects.
Local Open Scope eff_scope.

(** The eight functions of [apiService], with their arguments. *)
Inductive Operation :=
| HealthCheck
| SendChatMessage (message_ : string) (sessionId : option string)
| ExtractMedicalInfo (text : string)
| GenerateDiagnosis (structuredInfo : Json)
| GetSessions
| DeleteSession (sessionId : string)
| TranscribeAudioFromUrl (audioUrl : string)
| GetStatus.

(** What a call resolves to. *)
Inductive Resolved :=
| RJson (j : Json)
| RChat (r : ChatResponse)
| RText (s : string).

Definition perform (server : Server) (op : Operation) : Eff World Api.Error Resolved :=
  match op with
  | HealthCheck => j <- Api.healthCheck server ;; ret (RJson j)
  | SendChatMessage m sid => r <- Api.sendChatMessage server m sid ;; ret (RChat r)
  | ExtractMedicalInfo t => j <- Api.extractMedicalInfo server t ;; ret (RJson j)
  | GenerateDiagnosis i => j <- Api.generateDiagnosis server i ;; ret (RJson j)
  | GetSessions => j <- Api.getSessions server ;; ret (RJson j)
  | DeleteSession sid => j <- Api.deleteSession server sid ;; ret (RJson j)
  | TranscribeAudioFromUrl u => s <- Api.transcribeAudioFromUrl server u ;; ret (RText s)
  | GetStatus => j <- Api.getStatus server ;; ret (RJson j)
  end.

(** The request each function hands to axios. *)
Definition request_of (op : Operation) : Axios.Request :=
  match op with
  | HealthCheck =>
      Axios.buildRequest Api.api Axios.GET "/health" None Axios.noOptions
  | SendChatMessage m sid =>
      Axios.buildRequest Api.api Axios.POST "/api/chat"
        (Some (Api.chatPayload m sid)) Axios.noOptions
  | ExtractMedicalInfo t =>
      Axios.buildRequest Api.api Axios.POST "/api/extract"
        (Some {[ "text" := JStr t ]}) Axios.noOptions
  | GenerateDiagnosis i =>
      Axios.buildRequest Api.api Axios.POST "/api/diagnose"
        (Some {[ "structured_info" := i ]}) Axios.noOptions
  | GetSessions =>
      Axios.buildRequest Api.api Axios.GET "/api/sessions" None Axios.noOptions
  | DeleteSession sid =>
      Axios.buildRequest Api.api Axios.DELETE ("/api/sessions/" +:+ sid) None
        Axios.noOptions
  | TranscribeAudioFromUrl u =>
      Axios.buildRequest Api.api Axios.POST "/api/transcribe-url"
        (Some {[ "audio_url" := JStr u ]})
        {| Axios.baseURL := None; Axios.headers := [];
           Axios.timeout := Some 120000%Z |}
  | GetStatus =>
      Axios.buildRequest Api.api Axios.GET "/api/status" None Axios.noOptions
  end.

Definition outcome_map {A B} (f : A -> B) (o : Axios.Outcome A) : Axios.Outcome B :=
  match o with
  | Axios.Fulfilled d => Axios.Fulfilled (f d)
  | Axios.Rejected e => Axios.Rejected e
  end.

(** How the back end settles the request of [op] issued in world [w]. *)
Definition settle (server : Server) (op : Operation) (w : World)
  : Axios.Outcome Resolved :=
  match op with
  | SendChatMessage _ _ =>
      outcome_map RChat (serve_chat server (requests w) (request_of op))
  | TranscribeAudioFromUrl _ =>
      outcome_map (fun d => RText (transcription d))
                  (serve_transcription server (requests w) (request_of op))
  | _ => outcome_map RJson (serve_json server (requests w) (request_of op))
  end.

(** The text each [catch] block puts in front of the detail. *)
Definition failure_prefix (op : Operation) : string :=
  match op with
  | HealthCheck => "Health check failed"
  | SendChatMessage _ _ => "Chat request failed"
  | ExtractMedicalInfo _ => "Extraction failed"
  | GenerateDiagnosis _ => "Diagnosis generation failed"
  | GetSessions => "Failed to get sessions"
  | DeleteSession _ => "Failed to delete session"
  | TranscribeAudioFromUrl _ => "Audio transcription failed"
  | GetStatus => "Failed to get system status"
  end.

(** The three read-only calls have a one-branch [catch]. *)
Definition plain_catch (op : Operation) : bool :=
  match op with
  | HealthCheck | GetSessions | GetStatus => true
  | _ => false
  end.

(** The message of the error a call throws when its request is rejected
    with [e]: from the one-branch [catch], from the two branches of the
    others, or the TypeError of reading the detail off a missing body. *)
Definition failure_text (op : Operation) (e : Axios.Error) : string :=
  if plain_catch op then failure_prefix op +:+ ": " +:+ Axios.message e
  else
    match Axios.response e with
    | Some resp =>
        match Axios.data_error resp with
        | Axios.Detail detail =>
            failure_prefix op +:+ ": " +:+ Api.or_else detail (Axios.message e)
        | Axios.Unreadable type_error => type_error
        end
    | None => "Network error: " +:+ Axios.message e
    end.

(** The requests issued by a run from world [w]. *)
Definition issued {A} (c : Eff World Api.Error A) (w : World) : list Axios.Request :=
  drop (length (requests w)) (requests (snd (c w))).

End ApiOps.

(* ===================================================================== *)
(** ** Observations on runs of the component *)
(* ===================================================================== *)

Module Trace.
Import Effects ApiOps ChatInterface.
Local Open Scope eff_scope.

(** The requests a handler issues when run from [sys]. *)
Definition comp_issued {A} (c : Comp A) (sys : Sys) : list Axios.Request :=
  drop (length (requests (world sys))) (requests (world (snd (c sys)))).

(** The transcript a handler leaves. *)
Definition transcript_after {A} (c : Comp A) (sys : Sys) : list Msg.Message :=
  messages (state (snd (c sys))).

(** The user has typed [text] into the input box. *)
Definition typed (text : string) (sys : Sys) : Sys :=
  snd (setInputMessage text sys).

(** [handleAudioUrlSubmit] past its two checks, about to enter [try]. *)
Definition audio_started (sys : Sys) : Sys :=
  snd ((setIsProcessingAudio true ;;; setShowAudioUrlModal false) sys).

(** The text of the error a failed chat turn throws, and of the error a
    failed transcription throws. *)
Definition chat_failure_text (e : Axios.Error) : string :=
  match Axios.response e with
  | Some resp =>
      match Axios.data_error resp with
      | Axios.Detail detail =>
          "Chat request failed: " +:+ Api.or_else detail (Axios.message e)
      | Axios.Unreadable type_error => type_error
      end
  | None => "Network error: " +:+ Axios.message e
  end.

Definition transcription_failure_text (e : Axios.Error) : string :=
  match Axios.response e with
  | Some resp =>
      match Axios.data_error resp with
      | Axios.Detail detail =>
          "Audio transcription failed: " +:+ Api.or_else detail (Axios.message e)
      | Axios.Unreadable type_error => type_error
      end
  | None => "Network error: " +:+ Axios.message e
  end.

Section Messages.
Variable server : Server.
Variable uuid_of : nat -> string.
Variable date_of : nat -> Z.

(** A message of [type] and [content] stamped with the [k]-th identifier
    and date still to be drawn in [sys]. *)
Definition stamped (k : nat) (sys : Sys) (type : Msg.MessageType)
           (content : string) : Msg.Message :=
  {| Msg.id := uuid_of (k + uuid_count (world sys)); Msg.type := type;
     Msg.content := content; Msg.agentUsed := None;
     Msg.timestamp := date_of (k + date_count (world sys));
     Msg.sessionId := None |}.

(** The AI message made from the body of a fulfilled chat turn. *)
Definition ai_message (k : nat) (sys : Sys) (d : ChatResponse) : Msg.Message :=
  {| Msg.id := uuid_of (k + uuid_count (world sys)); Msg.type := Msg.ai;
     Msg.content := response d; Msg.agentUsed := Some (agent_used d);
     Msg.timestamp := date_of (k + date_count (world sys));
     Msg.sessionId := Some (session_id d) |}.

(** The user message of a send from [sys]. *)
Definition sent_user_message (sys : Sys) : Msg.Message :=
  stamped 0 sys Msg.user (JsString.trim (inputMessage (state sys))).

(** The message a settled chat request leaves: the AI's answer, or the
    error text behind [label]. *)
Definition reply_message (k : nat) (sys : Sys) (label : string)
           (o : Axios.Outcome ChatResponse) : Msg.Message :=
  match o with
  | Axios.Fulfilled d => ai_message k sys d
  | Axios.Rejected e => stamped k sys Msg.error (label +:+ chat_failure_text e)
  end.

(** How the back end settles the chat turn of a send from [sys]. *)
Definition sent_outcome (sys : Sys) : Axios.Outcome ChatResponse :=
  serve_chat server (requests (world sys))
    (request_of (SendChatMessage (JsString.trim (inputMessage (state sys)))
                   (Some (sessionId (state sys))))).

(** The processing notice of an audio submission from [sys]. *)
Definition processing_message (sys : Sys) : Msg.Message :=
  stamped 0 sys Msg.system
    ("Processing audio from URL: " +:+ audioUrl (state sys) +:+ "...").

(** How the back end settles the transcription request of [sys]. *)
Definition transcription_outcome (sys : Sys)
  : Axios.Outcome TranscriptionResponse :=
  serve_transcription server (requests (world sys))
    (request_of (TranscribeAudioFromUrl (audioUrl (state sys)))).

(** How the back end settles the chat turn that follows a transcription
    to [text]. *)
Definition transcribed_outcome (sys : Sys) (text : string)
  : Axios.Outcome ChatResponse :=
  serve_chat server
    (requests (world sys)
       ++ [request_of (TranscribeAudioFromUrl (audioUrl (state sys)))])
    (request_of (SendChatMessage text (Some (sessionId (state sys))))).

End Messages.

End Trace.

(* ===================================================================== *)
(** ** [ChatInterface.js]: the remaining handlers and the render logic *)
(* ===================================================================== *)

Module ChatControls.
Import Effects JsString ChatInterface.
Local Open Scope eff_scope.

(** The fields of a keyboard event the handlers read. *)
Record KeyEvent := {
  key : string;
  shiftKey : bool
}.

Definition insertSampleText (text : string) : Comp unit :=
  setInputMessage text.

Definition handleAudioButtonClick : Comp unit :=
  setShowAudioUrlModal true.

Definition handleModalClose : Comp unit :=
  setShowAudioUrlModal false ;;;
  setAudioUrl "".

(** [s.slice(0, n)] *)
Fixpoint slice0 (n : nat) (s : string) : string :=
  match n, s with
  | S n', String c s' => String c (slice0 n' s')
  | _, _ => EmptyString
  end.

(** The excerpt of a sample text that a sample button shows after its
    "Example N:" label and a space:
    [{text.slice(0, 120)}{text.length > 120 ? '...' : ''}]. *)
Definition sampleExcerpt (text : string) : string :=
  slice0 120 text +:+ (if (120 <? String.length text)%nat then "..." else "").

(** The [disabled] attribute of the Send button. *)
Definition sendDisabled (st : State) : bool :=
  negb (truthy (trim (inputMessage st))) || isLoading st || isProcessingAudio st.

(** What the user, or a timer, can make happen. *)
Inductive Event :=
| ChangeInput (value : string)
| KeyPress (e : KeyEvent)
| ClickSend
| ClickClear
| ClickSample (text : string)
| ClickAudio
| ChangeUrl (value : string)
| UrlKeyDown (e : KeyEvent)
| ClickTranscribe
| ClickCancel
| NotificationTimeout.

Section Handlers.
Variable server : Server.
Variable uuid_of : nat -> string.
Variable date_of : nat -> Z.
Variable URL_pathname : string -> option string.

(** [e.preventDefault()] has no effect on the modelled state. *)
Definition handleKeyPress (e : KeyEvent) : Comp unit :=
  if String.eqb (key e) "Enter" && negb (shiftKey e)
  then handleSendMessage server uuid_of date_of
  else ret tt.

Definition handleUrlKeyPress (e : KeyEvent) : Comp unit :=
  if String.eqb (key e) "Enter"
  then handleAudioUrlSubmit server uuid_of date_of URL_pathname
  else if String.eqb (key e) "Escape" then handleModalClose
  else ret tt.

(** The handler each event is wired to in the JSX. *)
Definition dispatch (ev : Event) : Comp unit :=
  match ev with
  | ChangeInput v => setInputMessage v
  | KeyPress e => handleKeyPress e
  | ClickSend => handleSendMessage server uuid_of date_of
  | ClickClear => clearChat
  | ClickSample text => insertSampleText text
  | ClickAudio => handleAudioButtonClick
  | ChangeUrl v => setAudioUrl v
  | UrlKeyDown e => handleUrlKeyPress e
  | ClickTranscribe => handleAudioUrlSubmit server uuid_of date_of URL_pathname
  | ClickCancel => handleModalClose
  | NotificationTimeout => setNotification None
  end.

(** Events handled one after the other, each to completion. *)
Fixpoint run_events (evs : list Event) (sys : Sys) : Sys :=
  match evs with
  | [] => sys
  | ev :: rest => run_events rest (snd (dispatch ev sys))
  end.

(** The transcript [handleAudioUrlSubmit] leaves once past its two
    checks, by how the back end settles the transcription and the chat
    turn. *)
Definition audio_transcript (sys : Sys) : list Msg.Message :=
  let proc := Trace.processing_message uuid_of date_of sys in
  match Trace.transcription_outcome server sys with
  | Axios.Rejected e =>
      List.filter Msg.not_system (messages (state sys) ++ [proc])
      ++ [Trace.stamped uuid_of date_of 1 sys Msg.error
            ("Error transcribing audio: " +:+ Trace.transcription_failure_text e)]
  | Axios.Fulfilled d =>
      let kept :=
        List.filter (Msg.id_differs (Msg.id proc)) (messages (state sys) ++ [proc])
        ++ [Trace.stamped uuid_of date_of 1 sys Msg.user (transcription d)] in
      match Trace.transcribed_outcome server sys (transcription d) with
      | Axios.Fulfilled reply =>
          kept ++ [Trace.ai_message uuid_of date_of 2 sys reply]
      | Axios.Rejected e =>
          List.filter Msg.not_system kept
          ++ [Trace.stamped uuid_of date_of 2 sys Msg.error
                ("Error transcribing audio: " +:+ Trace.chat_failure_text e)]
      end
  end.

(** The requests it issues. *)
Definition audio_requests (sys : Sys) : list Axios.Request :=
  match Trace.transcription_outcome server sys with
  | Axios.Rejected _ =>
      [ApiOps.request_of (ApiOps.TranscribeAudioFromUrl (audioUrl (state sys)))]
  | Axios.Fulfilled d =>
      [ApiOps.request_of (ApiOps.TranscribeAudioFromUrl (audioUrl (state sys)));
       ApiOps.request_of
         (ApiOps.SendChatMessage (transcription d) (Some (sessionId (state sys))))]
  end.

(** Whether the transcription went through. *)
Definition transcribed (sys : Sys) : bool :=
  match Trace.transcription_outcome server sys with
  | Axios.Rejected _ => false
  | Axios.Fulfilled _ => true
  end.

End Handlers.

(** A request of this component instance: a transcription, or a chat turn
    under the session id [sid]. *)
Definition of_session (sid : string) (r : Axios.Request) : Prop :=
  (exists u, r = ApiOps.request_of (ApiOps.TranscribeAudioFromUrl u)) \/
  (exists m, r = ApiOps.request_of (ApiOps.SendChatMessage m (Some sid))).

(** The messages of [l] have pairwise different identifiers, each among
    the first [n] values drawn from [uuidv4()]. *)
Definition drawn (uuid_of : nat -> string) (n : nat) (l : list Msg.Message) : Prop :=
  NoDup (map Msg.id l) /\
  forall m, In m l -> exists k, (k < n)%nat /\ Msg.id m = uuid_of k.

(** Every identifier of the transcript was drawn from [uuidv4()] earlier,
    and no two messages share one. *)
Definition ids_drawn (uuid_of : nat -> string) (sys : Sys) : Prop :=
  drawn uuid_of (uuid_count (world sys)) (messages (state sys)).

(** [uuidv4()] never returns the same value twice. *)
Definition never_repeats (uuid_of : nat -> string) : Prop :=
  forall j k, uuid_of j = uuid_of k -> j = k.

(** What every handler keeps when it takes the component from [sys] to
    [out]: the session id; the two busy flags, which it leaves alone or
    lowers; the requests already issued, to which it only adds requests of
    this session; and the discipline of identifiers. *)
Definition keeps (uuid_of : nat -> string) (sys out : Sys) : Prop :=
  sessionId (state out) = sessionId (state sys) /\
  (isLoading (state out) = false \/
   isLoading (state out) = isLoading (state sys)) /\
  (isProcessingAudio (state out) = false \/
   isProcessingAudio (state out) = isProcessingAudio (state sys)) /\
  (exists new,
      requests (world out) = requests (world sys) ++ new /\
      Forall (of_session (sessionId (state sys))) new) /\
  (never_repeats uuid_of -> ids_drawn uuid_of sys -> ids_drawn uuid_of out).

(** All characters of [s] are white space. *)
Fixpoint all_blank (s : string) : bool :=
  match s with
  | EmptyString => true
  | String c s' => isWhiteSpace c && all_blank s'
  end.

(** The last code unit of [s], if any. *)
Fixpoint last_char (s : string) : option ascii :=
  match s with
  | EmptyString => None
  | String c EmptyString => Some c
  | String _ s' => last_char s'
  end.

End ChatControls.

(* ===================================================================== *)
(** ** [App.js] and [components/SystemStatus.js] *)
(* ===================================================================== *)

(** The status page: the [App] component and its [SystemStatus] child, which
    receives [checkBackendConnection] as [onRefresh].  Handlers are run to
    completion, one at a time; the [useEffect] hooks (the connection check on
    mount, the reload of the sessions when the connection comes up) are not
    part of a handler's run and are left out, as are [console.error] and the
    [toLocaleString] formatting. *)
Module StatusPage.
Import Effects.
Local Open Scope eff_scope.

(** The [useState] cells of [App]. *)
Record AppState := {
  activeTab : string;
  systemStatus : option Json;
  isBackendConnected : bool
}.

(** The [useState] cells of [SystemStatus]. *)
Record PanelState := {
  sessions : option Json;
  isLoadingSessions : bool;
  lastUpdated : Z
}.

Record Page := {
  app : AppState;
  panel : PanelState;
  world : World
}.

Definition PageComp (A : Type) : Type := Eff Page Api.Error A.

Definition on_app (f : AppState -> AppState) : PageComp unit :=
  modify (fun p => {| app := f (app p); panel := panel p; world := world p |}).

Definition on_panel (f : PanelState -> PanelState) : PageComp unit :=
  modify (fun p => {| app := app p; panel := f (panel p); world := world p |}).

Definition setActiveTab (v : string) : PageComp unit :=
  on_app (fun a => {| activeTab := v; systemStatus := systemStatus a;
                      isBackendConnected := isBackendConnected a |}).

Definition setSystemStatus (v : option Json) : PageComp unit :=
  on_app (fun a => {| activeTab := activeTab a; systemStatus := v;
                      isBackendConnected := isBackendConnected a |}).

Definition setIsBackendConnected (v : bool) : PageComp unit :=
  on_app (fun a => {| activeTab := activeTab a; systemStatus := systemStatus a;
                      isBackendConnected := v |}).

Definition setSessions (v : option Json) : PageComp unit :=
  on_panel (fun s => {| sessions := v; isLoadingSessions := isLoadingSessions s;
                        lastUpdated := lastUpdated s |}).

Definition setIsLoadingSessions (v : bool) : PageComp unit :=
  on_panel (fun s => {| sessions := sessions s; isLoadingSessions := v;
                        lastUpdated := lastUpdated s |}).

Definition setLastUpdated (v : Z) : PageComp unit :=
  on_panel (fun s => {| sessions := sessions s;
                        isLoadingSessions := isLoadingSessions s;
                        lastUpdated := v |}).

Definition alert (text : string) : PageComp unit :=
  modify (fun p =>
    {| app := app p; panel := panel p;
       world := {| uuid_count := uuid_count (world p);
                   date_count := date_count (world p);
                   requests := requests (world p);
                   alerts := alerts (world p) ++ [text];
                   timers := timers (world p) |} |}).

Definition await {A} (c : Eff World Api.Error A) : PageComp A :=
  lift world (fun w p => {| app := app p; panel := panel p; world := w |}) c.

(** The requests a handler issues when run from [p]. *)
Definition page_issued {A} (c : PageComp A) (p : Page) : list Axios.Request :=
  drop (length (requests (world p))) (requests (world (snd (c p)))).

(** ToString of an integer. *)
Definition show (z : Z) : string :=
  DecimalString.NilZero.string_of_int (Z.to_int z).

(** A time value of a valid [Date]: an integer number of milliseconds of
    magnitude at most 8.64e15. *)
Definition valid_date (t : Z) : bool :=
  (Z.abs t <=? 8640000000000000)%Z.

(** An integer that doubles hold exactly, together with its neighbours. *)
Definition safe_integer (z : Z) : bool :=
  (Z.abs z <? 2 ^ 53)%Z.

(** [formatUptime(timestamp)], given the time values of [new Date()] and
    of [new Date(timestamp)].  The source computes in doubles; on two
    valid dates whose difference is a safe integer every step is exact,
    [Math.floor] of the quotient is [Z.div] and [%] is [Z.rem].  [None]
    stands for what the model leaves out: an invalid date (NaN) or a
    difference beyond the safe integers. *)
Definition formatUptime (now start : Z) : option string :=
  if valid_date now && valid_date start && safe_integer (now - start) then
    let diffMs := (now - start)%Z in
    let minutes := (diffMs / 60000)%Z in
    let hours := (minutes / 60)%Z in
    Some (if (0 <? hours)%Z
          then show hours +:+ "h " +:+ show (Z.rem minutes 60) +:+ "m"
          else show minutes +:+ "m")
  else None.

(** What [<main>] shows. *)
Inductive View :=
| ConnectionError
| ChatView
| StatusView (systemStatus : option Json) (isConnected : bool)
| Nothing.

(** The [id]s of [tabs]. *)
Definition tabs : list string := ["chat"; "status"].

Definition renderActiveComponent (a : AppState) : View :=
  match List.find (fun tab => String.eqb tab (activeTab a)) tabs with
  | None => Nothing
  | Some _ =>
      if String.eqb (activeTab a) "status"
      then StatusView (systemStatus a) (isBackendConnected a)
      else ChatView
  end.

(** The body of [<main>]. *)
Definition mainView (a : AppState) : View :=
  if negb (isBackendConnected a) && negb (String.eqb (activeTab a) "status")
  then ConnectionError
  else renderActiveComponent a.

(** The [disabled] attribute of the tab button [tab]. *)
Definition tabDisabled (a : AppState) (tab : string) : bool :=
  negb (isBackendConnected a) && negb (String.eqb tab "status").

Section Handlers.
(** The back end, the k-th reading of [new Date()], and the user's
    answer to a [window.confirm] dialog. *)
Variable server : Server.
Variable date_of : nat -> Z.
Variable window_confirm : string -> bool.

Definition Date_new : PageComp Z :=
  fun p =>
    let w := world p in
    (Return (date_of (date_count w)),
     {| app := app p; panel := panel p;
        world := {| uuid_count := uuid_count w; date_count := S (date_count w);
                    requests := requests w; alerts := alerts w;
                    timers := timers w |} |}).

(** [App.checkBackendConnection] *)
Definition checkBackendConnection : PageComp unit :=
  try_catch
    (_ <- await (Api.healthCheck server) ;;
     setIsBackendConnected true ;;;
     status <- await (Api.getStatus server) ;;
     setSystemStatus (Some status))
    (fun error => setIsBackendConnected false).

(** [SystemStatus.loadSessions] *)
Definition loadSessions : PageComp unit :=
  setIsLoadingSessions true ;;;
  try_finally
    (try_catch
       (response <- await (Api.getSessions server) ;;
        setSessions (Some response) ;;;
        now <- Date_new ;;
        setLastUpdated now)
       (fun error => ret tt))
    (setIsLoadingSessions false).

(** [SystemStatus.handleDeleteSession], with the [onRefresh] prop. *)
Definition handleDeleteSession (onRefresh : PageComp unit) (sessionId : string)
  : PageComp unit :=
  if negb (window_confirm "Are you sure you want to delete this session?")
  then ret tt
  else
    try_catch
      (_ <- await (Api.deleteSession server sessionId) ;;
       loadSessions ;;;
       onRefresh)
      (fun error => alert ("Failed to delete session: " +:+ Api.message error)).

(** The delete button as [App] wires it:
    [onRefresh={checkBackendConnection}]. *)
Definition deleteSessionClicked (sessionId : string) : PageComp unit :=
  handleDeleteSession checkBackendConnection sessionId.

(** How the back end settles the requests of these handlers when they
    start from [p]; the status request comes after the health check. *)
Definition health_outcome (p : Page) : Axios.Outcome Json :=
  serve_json server (requests (world p)) (ApiOps.request_of ApiOps.HealthCheck).

Definition status_outcome (p : Page) : Axios.Outcome Json :=
  serve_json server
    (requests (world p) ++ [ApiOps.request_of ApiOps.HealthCheck])
    (ApiOps.request_of ApiOps.GetStatus).

Definition sessions_outcome (p : Page) : Axios.Outcome Json :=
  serve_json server (requests (world p)) (ApiOps.request_of ApiOps.GetSessions).

Definition delete_outcome (sessionId : string) (p : Page) : Axios.Outcome Json :=
  serve_json server (requests (world p))
    (ApiOps.request_of (ApiOps.DeleteSession sessionId)).

(** The page once the DELETE request of [sessionId] is on record. *)
Definition after_delete (sessionId : string) (p : Page) : Page :=
  {| app := app p; panel := panel p;
     world := Api.log_request
                (ApiOps.request_of (ApiOps.DeleteSession sessionId)) (world p) |}.

End Handlers.

End StatusPage.

(* ===================================================================== *)
(** ** Concrete environments *)
(* ===================================================================== *)

Module Examples.

(** The promise rejects without a response (the back end is down). *)
Definition offline : Axios.Error :=
  {| Axios.message := "Network Error"; Axios.response := None |}.

(** The back end answers 503 with [{ "error": "model not loaded" }]. *)
Definition unavailable : Axios.Error :=
  {| Axios.message := "Request failed with status code 503";
     Axios.response :=
       Some {| Axios.status := 503;
               Axios.data_error := Axios.Detail (Some "model not loaded") |} |}.

(** The back end answers 502 with the body [null]; reading the detail
    raises the TypeError of the engine (here in V8's words). *)
Definition bodiless : Axios.Error :=
  {| Axios.message := "Request failed with status code 502";
     Axios.response :=
       Some {| Axios.status := 502;
               Axios.data_error :=
                 Axios.Unreadable
                   "Cannot read properties of null (reading 'error')" |} |}.

(** A back end that rejects every request with [e]. *)
Definition rejecting (e : Axios.Error) : Server :=
  {| serve_chat := fun _ _ => Axios.Rejected e;
     serve_transcription := fun _ _ => Axios.Rejected e;
     serve_json := fun _ _ => Axios.Rejected e |}.

(** A back end that transcribes every audio file to [text] and answers
    every chat turn with [reply]. *)
Definition answering (text : string) (reply : ChatResponse) : Server :=
  {| serve_chat := fun _ _ => Axios.Fulfilled reply;
     serve_transcription := fun _ _ => Axios.Fulfilled {| transcription := text |};
     serve_json := fun _ _ => Axios.Fulfilled JNull |}.

(** A back end that transcribes to [text] and then fails the chat turn. *)
Definition transcribing_only (text : string) (e : Axios.Error) : Server :=
  {| serve_chat := fun _ _ => Axios.Rejected e;
     serve_transcription := fun _ _ => Axios.Fulfilled {| transcription := text |};
     serve_json := fun _ _ => Axios.Rejected e |}.

Definition reply : ChatResponse :=
  {| response := "Please describe the symptoms.";
     agent_used := "medical_agent";
     session_id := "s-1" |}.

Definition fresh_world : World :=
  {| uuid_count := 0; date_count := 0; requests := []; alerts := []; timers := [] |}.

(** Distinct identifiers "a", "b", "c", ... *)
Definition uuid_of (k : nat) : string :=
  String (ascii_of_nat (97 + k)) EmptyString.

Definition date_of (k : nat) : Z := Z.of_nat k.

(** A toy [URL]: absolute [https://host] URLs only, the path being what
    follows the host. *)
Fixpoint from_slash (s : string) : string :=
  match s with
  | EmptyString => "/"
  | String c rest => if Ascii.eqb c "/"%char then s else from_slash rest
  end.

Definition URL_pathname (s : string) : option string :=
  match s with
  | String "h" (String "t" (String "t" (String "p" (String "s"
      (String ":" (String "/" (String "/" rest))))))) => Some (from_slash rest)
  | _ => None
  end.

Definition idle (input : string) : ChatInterface.State :=
  {| ChatInterface.messages := [];
     ChatInterface.inputMessage := input;
     ChatInterface.isLoading := false;
     ChatInterface.isProcessingAudio := false;
     ChatInterface.showAudioUrlModal := false;
     ChatInterface.audioUrl := "";
     ChatInterface.notification := None;
     ChatInterface.sessionId := "s-1" |}.

(** The modal is open with [url] typed in. *)
Definition with_audio_url (url : string) (msgs : list Msg.Message)
  : ChatInterface.State :=
  {| ChatInterface.messages := msgs;
     ChatInterface.inputMessage := "";
     ChatInterface.isLoading := false;
     ChatInterface.isProcessingAudio := false;
     ChatInterface.showAudioUrlModal := true;
     ChatInterface.audioUrl := url;
     ChatInterface.notification := None;
     ChatInterface.sessionId := "s-1" |}.

Definition boot (st : ChatInterface.State) : ChatInterface.Sys :=
  {| ChatInterface.state := st; ChatInterface.world := fresh_world |}.

(** A transcript with an earlier exchange and a stale system notice. *)
Definition earlier : list Msg.Message :=
  [ {| Msg.id := "x"; Msg.type := Msg.user; Msg.content := "I have a cough";
       Msg.agentUsed := None; Msg.timestamp := 0; Msg.sessionId := None |};
    {| Msg.id := "y"; Msg.type := Msg.system;
       Msg.content := "Processing audio from URL: https://example.com/old.wav...";
       Msg.agentUsed := None; Msg.timestamp := 0; Msg.sessionId := None |};
    {| Msg.id := "z"; Msg.type := Msg.ai; Msg.content := "Since when?";
       Msg.agentUsed := Some "medical_agent"; Msg.timestamp := 0;
       Msg.sessionId := Some "s-1" |} ].

Definition audio_page : ChatInterface.Sys :=
  boot (with_audio_url "https://example.com/visit.mp3" earlier).

(** A small heuristic table; "Alex" is unisex. *)
Definition table : list (string * MedicalTools.Gender) :=
  [("Maria", MedicalTools.Female); ("John", MedicalTools.Male);
   ("Alex", MedicalTools.Male); ("Alex", MedicalTools.Female)].

(** A reasoning service that reads the narrative of the specification's
    end-to-end scenario; its wording of the reason changes from call to
    call, and it leaves out the fields the text does not give. *)
Definition reason_extract (k : nat) (text : string)
  : MedicalTools.ServiceFailure + MedicalTools.RawExtraction :=
  inr {| MedicalTools.raw_symptoms := ["cough"; "fever"];
         MedicalTools.raw_patient_info :=
           <[ "name" := MedicalTools.VStr "Maria Rodriguez" ]>
             {[ "age" := MedicalTools.VInt 28 ]};
         MedicalTools.raw_reason_for_consultation :=
           match k with
           | O => "persistent cough and fever"
           | S _ => "cough with fever"
           end |}.


Definition reason_diagnose (k : nat) (e : MedicalTools.MedicalExtraction)
  : MedicalTools.ServiceFailure + string :=
  inr "Likely a respiratory infection.".

(** An extraction without symptoms. *)
Definition no_symptoms : MedicalTools.MedicalExtraction :=
  {| MedicalTools.symptoms := [];
     MedicalTools.patient_info :=
       MedicalTools.complete_patient_info table
         {[ "name" := MedicalTools.VStr "John Doe" ]};
     MedicalTools.reason_for_consultation := "check-up" |}.

End Examples.

(* ===================================================================== *)
(** ** More concrete environments *)
(* ===================================================================== *)

Module MoreExamples.

(** Identifiers that never repeat: "", "u", "uu", ... *)
Fixpoint tally (k : nat) : string :=
  match k with
  | O => EmptyString
  | S k' => String "u" (tally k')
  end.

(** A short session at the keyboard: a message is typed and sent, the
    audio dialog is opened, a URL is typed and submitted. *)
Definition session : list ChatControls.Event :=
  [ ChatControls.ChangeInput " I have a cough ";
    ChatControls.KeyPress {| ChatControls.key := "Enter"; ChatControls.shiftKey := false |};
    ChatControls.ClickAudio;
    ChatControls.ChangeUrl "https://example.com/visit.mp3";
    ChatControls.ClickTranscribe;
    ChatControls.NotificationTimeout ].

(** The status page as it is first rendered. *)
Definition landing : StatusPage.Page :=
  {| StatusPage.app :=
       {| StatusPage.activeTab := "chat"; StatusPage.systemStatus := None;
          StatusPage.isBackendConnected := false |};
     StatusPage.panel :=
       {| StatusPage.sessions := None; StatusPage.isLoadingSessions := false;
          StatusPage.lastUpdated := 0 |};
     StatusPage.world := Examples.fresh_world |}.

End MoreExamples.
(* ===================================================================== *)
(** ** Facts about the string built-ins *)
(* ===================================================================== *)

Section JsStringFacts.
Import JsString.

Lemma startsWith_spec (needle hay : string) :
  startsWith needle hay = true <-> exists post, hay = needle +:+ post.
Proof.
  revert hay; induction needle as [|a n IH]; intros hay; simpl.
  - split; [intros _; exists hay; reflexivity | reflexivity].
  - destruct hay as [|b h].
    + split; [discriminate | intros [post H]; discriminate].
    + destruct (Ascii.eqb a b) eqn:E.
      * apply Ascii.eqb_eq in E; subst b. rewrite IH.
        split; intros [post H]; exists post; [now rewrite H | now inversion H].
      * split; [discriminate|]. intros [post H]. inversion H; subst.
        rewrite Ascii.eqb_refl in E. discriminate.
Qed.

Lemma includes_spec (needle hay : string) :
  includes needle hay = true <->
  exists pre post, hay = pre +:+ needle +:+ post.
Proof.
  induction hay as [|b h IH].
  - simpl. rewrite orb_false_r, startsWith_spec. split.
    + intros [post H]. exists "", post. exact H.
    + intros [pre [post H]]. destruct pre; [exists post; exact H | discriminate].
  - cbn [includes]. rewrite orb_true_iff, startsWith_spec, IH. split.
    + intros [[post H] | [pre [post H]]].
      * exists "", post. exact H.
      * exists (String b pre), post. simpl. now rewrite H.
    + intros [pre [post H]]. destruct pre as [|c pre].
      * left. exists post. exact H.
      * right. simpl in H. inversion H; subst. now exists pre, post.
Qed.

End JsStringFacts.

(* ===================================================================== *)
(** ** The service layer: one request per call *)
(* ===================================================================== *)

Section ApiFacts.
Import Effects ApiOps.

Lemma issued_log_request {A} (c : Eff World Api.Error A) (w : World) r x :
  c w = (x, Api.log_request r w) -> issued c w = [r].
Proof.
  intros H. unfold issued. rewrite H. simpl. apply drop_app_length.
Qed.

(** Every function of the service layer issues exactly the request
    [request_of] and completes as the back end settles it. *)
Lemma perform_settle (server : Server) (op : Operation) (w : World) :
  perform server op w =
  (match settle server op w with
   | Axios.Fulfilled d => Return d
   | Axios.Rejected e => Throw {| Api.message := failure_text op e |}
   end, Api.log_request (request_of op) w).
Proof.
  destruct op; cbn -[Api.log_request Api.chatPayload String.append];
    unfold Api.healthCheck, Api.sendChatMessage, Api.extractMedicalInfo,
      Api.generateDiagnosis, Api.getSessions, Api.deleteSession,
      Api.transcribeAudioFromUrl, Api.getStatus,
      Api.api_get, Api.api_post, Api.api_delete, Api.send, Api.read_detail,
      failure_text, bind, try_catch, ret, throw;
    cbn -[Api.log_request Api.chatPayload String.append];
    match goal with
    | |- context [?f server (requests w) ?r] => destruct (f server (requests w) r) as [d|e]
    end;
    cbn -[Api.log_request Api.chatPayload String.append];
    try reflexivity;
    destruct (Axios.response e) as [resp|]; try reflexivity;
    destruct (Axios.data_error resp); reflexivity.
Qed.

(** The chat turn on its own. *)
Lemma sendChatMessage_run (server : Server) (m : string) (sid : option string)
      (w : World) :
  Api.sendChatMessage server m sid w =
  (match serve_chat server (requests w) (request_of (SendChatMessage m sid)) with
   | Axios.Fulfilled d => Return d
   | Axios.Rejected e => Throw {| Api.message := Trace.chat_failure_text e |}
   end, Api.log_request (request_of (SendChatMessage m sid)) w).
Proof.
  unfold Api.sendChatMessage, Api.api_post, Api.send, Api.read_detail,
    Trace.chat_failure_text, bind, try_catch, ret, throw.
  cbn -[Api.log_request Api.chatPayload String.append].
  destruct (serve_chat server (requests w) _) as [d|e];
    cbn -[Api.log_request Api.chatPayload String.append]; [reflexivity|].
  destruct (Axios.response e) as [resp|]; [|reflexivity].
  destruct (Axios.data_error resp); reflexivity.
Qed.

(** The transcription call on its own. *)
Lemma transcribeAudioFromUrl_run (server : Server) (u : string) (w : World) :
  Api.transcribeAudioFromUrl server u w =
  (match serve_transcription server (requests w)
           (request_of (TranscribeAudioFromUrl u)) with
   | Axios.Fulfilled d => Return (transcription d)
   | Axios.Rejected e => Throw {| Api.message := Trace.transcription_failure_text e |}
   end, Api.log_request (request_of (TranscribeAudioFromUrl u)) w).
Proof.
  unfold Api.transcribeAudioFromUrl, Api.api_post, Api.send, Api.read_detail,
    Trace.transcription_failure_text, bind, try_catch, ret, throw.
  cbn -[Api.log_request String.append].
  destruct (serve_transcription server (requests w) _) as [d|e];
    cbn -[Api.log_request String.append]; [reflexivity|].
  destruct (Axios.response e) as [resp|]; [|reflexivity].
  destruct (Axios.data_error resp); reflexivity.
Qed.

(** The payload of a chat turn, field by field. *)
Lemma chatPayload_message (m : string) (sid : option string) :
  Api.chatPayload m sid !! "message" = Some (JStr m).
Proof.
  unfold Api.chatPayload. destruct sid as [s|]; [destruct (JsString.truthy s)|].
  - rewrite lookup_insert_ne by discriminate. apply lookup_singleton_eq.
  - apply lookup_singleton_eq.
  - apply lookup_singleton_eq.
Qed.

Lemma chatPayload_session_id (m : string) (sid : option string) :
  Api.chatPayload m sid !! "session_id" =
  match sid with
  | Some s => if JsString.truthy s then Some (JStr s) else None
  | None => None
  end.
Proof.
  unfold Api.chatPayload. destruct sid as [s|]; [destruct (JsString.truthy s)|].
  - apply lookup_insert_eq.
  - apply lookup_singleton_ne. discriminate.
  - apply lookup_singleton_ne. discriminate.
Qed.

Lemma perform_issued (server : Server) (op : Operation) (w : World) :
  issued (perform server op) w = [request_of op].
Proof. eapply issued_log_request. apply perform_settle. Qed.

End ApiFacts.

(* ===================================================================== *)
(** ** The chat component, step by step *)
(* ===================================================================== *)

Section ComponentFacts.
Import Effects ApiOps ChatInterface Trace.

Variable server : Server.
Variable uuid_of : nat -> string.
Variable date_of : nat -> Z.
Variable URL_pathname : string -> option string.

Ltac run_setters :=
  unfold setMessages, setInputMessage, setIsLoading, setIsProcessingAudio,
    setShowAudioUrlModal, setAudioUrl, setNotification, showNotification,
    alert, setTimeout, on_state, on_world, uuidv4, Date_new, await, lift,
    modify, get, bind, try_catch, try_finally, ret, throw.

(** With blank input, or while loading, the handler returns at once. *)
Lemma handleSendMessage_skip (sys : Sys) :
  JsString.trim (inputMessage (state sys)) = "" \/ isLoading (state sys) = true ->
  handleSendMessage server uuid_of date_of sys = (Return tt, sys).
Proof.
  intros H. unfold handleSendMessage, bind, get, ret.
  destruct H as [H|H]; rewrite H; [reflexivity|].
  now rewrite orb_true_r.
Qed.

Lemma handleSendMessage_guard (sys : Sys) :
  JsString.trim (inputMessage (state sys)) <> "" ->
  isLoading (state sys) = false ->
  negb (JsString.truthy (JsString.trim (inputMessage (state sys))))
  || isLoading (state sys) = false.
Proof.
  intros Hne ->. destruct (JsString.trim _); [congruence | reflexivity].
Qed.

Lemma handleSendMessage_run (sys : Sys) :
  JsString.trim (inputMessage (state sys)) <> "" ->
  isLoading (state sys) = false ->
  handleSendMessage server uuid_of date_of sys =
  (Return tt,
   {| state :=
        {| messages := messages (state sys)
                       ++ [sent_user_message uuid_of date_of sys;
                           reply_message uuid_of date_of 1 sys "Error: "
                             (sent_outcome server sys)];
           inputMessage := "";
           isLoading := false;
           isProcessingAudio := isProcessingAudio (state sys);
           showAudioUrlModal := showAudioUrlModal (state sys);
           audioUrl := audioUrl (state sys);
           notification := notification (state sys);
           sessionId := sessionId (state sys) |};
      world :=
        {| uuid_count := S (S (uuid_count (world sys)));
           date_count := S (S (date_count (world sys)));
           requests := requests (world sys)
                       ++ [request_of (SendChatMessage
                                         (JsString.trim (inputMessage (state sys)))
                                         (Some (sessionId (state sys))))];
           alerts := alerts (world sys);
           timers := timers (world sys) |} |}).
Proof.
  intros Hne Hload.
  pose proof (handleSendMessage_guard sys Hne Hload) as Hg.
  unfold handleSendMessage. unfold bind at 1. unfold get at 1.
  rewrite Hg. run_setters.
  cbn -[Api.sendChatMessage request_of String.append JsString.trim].
  rewrite sendChatMessage_run.
  cbn -[request_of String.append JsString.trim].
  unfold reply_message, sent_outcome, sent_user_message, ai_message, stamped,
    chat_failure_text.
  destruct (serve_chat server _ _) as [d|e];
    cbn -[request_of String.append JsString.trim];
    rewrite <- app_assoc; reflexivity.
Qed.

(** Past its two checks the audio handler is its [try] statement. *)
Lemma handleAudioUrlSubmit_enter (sys : Sys) :
  JsString.truthy (JsString.trim (audioUrl (state sys))) = true ->
  validateAudioUrl URL_pathname (audioUrl (state sys)) = true ->
  handleAudioUrlSubmit server uuid_of date_of URL_pathname sys =
  try_finally
    (try_catch
       (audioSubmitBody server uuid_of date_of (audioUrl (state sys))
          (sessionId (state sys)))
       (audioSubmitCatch uuid_of date_of))
    audioSubmitFinally (audio_started sys).
Proof.
  intros Ht Hv. unfold handleAudioUrlSubmit. unfold bind at 1. unfold get at 1.
  rewrite Ht, Hv. reflexivity.
Qed.

(** When the [try] block throws, [catch] and [finally] complete normally:
    the system messages are filtered out of the transcript of that moment
    and one error message is appended. *)
Lemma audio_catch_run (body : Comp unit) (sys0 mid : Sys) (err : Api.Error) :
  body sys0 = (Throw err, mid) ->
  exists out,
    try_finally (try_catch body (audioSubmitCatch uuid_of date_of))
      audioSubmitFinally sys0 = (Return tt, out) /\
    messages (state out) =
      List.filter Msg.not_system (messages (state mid))
      ++ [stamped uuid_of date_of 0 mid Msg.error
            ("Error transcribing audio: " +:+ Api.message err)] /\
    requests (world out) = requests (world mid) /\
    isLoading (state out) = false /\
    isProcessingAudio (state out) = false /\
    audioUrl (state out) = "".
Proof.
  intros Hbody. unfold try_finally, try_catch. rewrite Hbody.
  unfold audioSubmitCatch, audioSubmitFinally. run_setters.
  cbn -[String.append List.filter].
  eexists. split; [reflexivity|].
  cbn -[String.append List.filter]. repeat split; reflexivity.
Qed.

(** The [try] block, by how the back end settles its two requests. *)
Lemma audioSubmitBody_run (sys : Sys) :
  let body :=
    audioSubmitBody server uuid_of date_of (audioUrl (state sys))
      (sessionId (state sys)) (audio_started sys) in
  match transcription_outcome server sys with
  | Axios.Rejected e =>
      fst body = Throw {| Api.message := transcription_failure_text e |} /\
      messages (state (snd body)) =
        messages (state sys) ++ [processing_message uuid_of date_of sys] /\
      requests (world (snd body)) =
        requests (world sys)
        ++ [request_of (TranscribeAudioFromUrl (audioUrl (state sys)))]
  | Axios.Fulfilled d =>
      requests (world (snd body)) =
        requests (world sys)
        ++ [request_of (TranscribeAudioFromUrl (audioUrl (state sys)));
            request_of (SendChatMessage (transcription d)
                          (Some (sessionId (state sys))))] /\
      match transcribed_outcome server sys (transcription d) with
      | Axios.Rejected e =>
          fst body = Throw {| Api.message := chat_failure_text e |} /\
          messages (state (snd body)) =
            List.filter
              (Msg.id_differs (Msg.id (processing_message uuid_of date_of sys)))
              (messages (state sys) ++ [processing_message uuid_of date_of sys])
            ++ [stamped uuid_of date_of 1 sys Msg.user (transcription d)]
      | Axios.Fulfilled reply =>
          fst body = Return tt /\
          messages (state (snd body)) =
            List.filter
              (Msg.id_differs (Msg.id (processing_message uuid_of date_of sys)))
              (messages (state sys) ++ [processing_message uuid_of date_of sys])
            ++ [stamped uuid_of date_of 1 sys Msg.user (transcription d);
                ai_message uuid_of date_of 2 sys reply]
      end
  end.
Proof.
  unfold audioSubmitBody, audio_started, transcription_outcome, transcribed_outcome.
  run_setters.
  cbn -[Api.sendChatMessage Api.transcribeAudioFromUrl request_of String.append
        List.filter].
  rewrite transcribeAudioFromUrl_run.
  cbn -[Api.sendChatMessage request_of String.append List.filter].
  destruct (serve_transcription server _ _) as [d|e];
    cbn -[Api.sendChatMessage request_of String.append List.filter].
  - rewrite sendChatMessage_run.
    cbn -[request_of String.append List.filter].
    destruct (serve_chat server _ _) as [reply|e];
      cbn -[request_of String.append List.filter];
      rewrite <- ?app_assoc; repeat split; reflexivity.
  - repeat split; reflexivity.
Qed.

(** After a successful transcription: the two requests of the audio
    handler, and the shape of the transcript it leaves. *)
Lemma handleAudioUrlSubmit_transcribed (sys : Sys) (d : TranscriptionResponse) :
  JsString.truthy (JsString.trim (audioUrl (state sys))) = true ->
  validateAudioUrl URL_pathname (audioUrl (state sys)) = true ->
  transcription_outcome server sys = Axios.Fulfilled d ->
  comp_issued (handleAudioUrlSubmit server uuid_of date_of URL_pathname) sys =
    [request_of (TranscribeAudioFromUrl (audioUrl (state sys)));
     request_of (SendChatMessage (transcription d) (Some (sessionId (state sys))))]
  /\
  exists pre r,
    transcript_after (handleAudioUrlSubmit server uuid_of date_of URL_pathname) sys =
      pre ++ [stamped uuid_of date_of 1 sys Msg.user (transcription d); r] /\
    match transcribed_outcome server sys (transcription d) with
    | Axios.Fulfilled reply => r = ai_message uuid_of date_of 2 sys reply
    | Axios.Rejected e =>
        Msg.type r = Msg.error /\
        Msg.content r = "Error transcribing audio: " +:+ chat_failure_text e
    end.
Proof.
  intros Ht Hv Hd. unfold comp_issued, transcript_after.
  rewrite handleAudioUrlSubmit_enter by assumption.
  pose proof (audioSubmitBody_run sys) as Hbody. cbv zeta in Hbody.
  rewrite Hd in Hbody. destruct Hbody as [Hreq Hbody].
  destruct (audioSubmitBody server uuid_of date_of (audioUrl (state sys))
              (sessionId (state sys)) (audio_started sys)) as [res mid] eqn:E.
  cbn [fst snd] in *.
  destruct (transcribed_outcome server sys (transcription d)) as [reply|e];
    destruct Hbody as [Hres Hmsgs]; subst res.
  - unfold try_finally, try_catch. rewrite E.
    unfold audioSubmitFinally. run_setters. cbn -[request_of String.append List.filter].
    rewrite Hreq, Hmsgs. split; [apply drop_app_length|].
    eexists; eexists. split; reflexivity.
  - destruct (audio_catch_run _ _ _ _ E) as [out [Hrun [Hout [Hreqs _]]]].
    rewrite Hrun. cbn [snd]. rewrite Hreqs, Hreq, Hout, Hmsgs.
    split; [apply drop_app_length|].
    rewrite List.filter_app. cbn [List.filter Msg.not_system stamped Msg.type
                               Msg.type_eqb negb].
    rewrite <- app_assoc. eexists; eexists. split; [reflexivity|].
    split; reflexivity.
Qed.

(** Typing [text] and sending it. *)
Lemma handleSendMessage_typed (text : string) (sys : Sys) :
  JsString.trim text <> "" ->
  isLoading (state sys) = false ->
  comp_issued (handleSendMessage server uuid_of date_of) (typed text sys) =
    [request_of (SendChatMessage (JsString.trim text) (Some (sessionId (state sys))))]
  /\
  exists r,
    transcript_after (handleSendMessage server uuid_of date_of) (typed text sys) =
      messages (state sys)
      ++ [stamped uuid_of date_of 0 sys Msg.user (JsString.trim text); r].
Proof.
  intros Hne Hload. unfold comp_issued, transcript_after.
  rewrite handleSendMessage_run by assumption.
  cbn -[request_of String.append JsString.trim].
  split; [apply drop_app_length|].
  eexists. reflexivity.
Qed.

(** Typing blank text and sending it does nothing. *)
Lemma handleSendMessage_typed_blank (text : string) (sys : Sys) :
  JsString.trim text = "" ->
  comp_issued (handleSendMessage server uuid_of date_of) (typed text sys) = [] /\
  transcript_after (handleSendMessage server uuid_of date_of) (typed text sys) =
    messages (state sys).
Proof.
  intros Hblank. unfold comp_issued, transcript_after.
  rewrite handleSendMessage_skip by (left; exact Hblank).
  cbn. split; [apply drop_all | reflexivity].
Qed.

(** Typing while the component is loading and sending does nothing
    either. *)
Lemma handleSendMessage_typed_skip (text : string) (sys : Sys) :
  JsString.trim text = "" \/ isLoading (state sys) = true ->
  comp_issued (handleSendMessage server uuid_of date_of) (typed text sys) = [] /\
  transcript_after (handleSendMessage server uuid_of date_of) (typed text sys) =
    messages (state sys).
Proof.
  intros Hskip. unfold comp_issued, transcript_after.
  rewrite handleSendMessage_skip by exact Hskip.
  cbn. split; [apply drop_all | reflexivity].
Qed.

End ComponentFacts.

(* ===================================================================== *)
(** ** The tools: post-processing and retry *)
(* ===================================================================== *)

Section ToolFacts.
Import Effects MedicalTools.

Variable table : list (string * Gender).
Variable reason_extract : nat -> string -> ServiceFailure + RawExtraction.
Variable reason_diagnose : nat -> MedicalExtraction -> ServiceFailure + string.




(** The completed record, field by field. *)
Lemma complete_patient_info_lookup (raw : gmap string Value) (f : string) :
  complete_patient_info table raw !! f =
  if String.eqb f "gender" then Some (gender_field table raw)
  else if existsb (String.eqb f) patient_fields
       then Some (field_or_sentinel raw f)
       else None.
Proof.
  unfold complete_patient_info, patient_fields. cbn [foldr existsb].
  destruct (String.eqb f "gender") eqn:Eg.
  - apply String.eqb_eq in Eg. subst f. apply lookup_insert_eq.
  - apply String.eqb_neq in Eg.
    rewrite lookup_insert_ne by congruence.
    repeat
      (match goal with
       | |- context [String.eqb f ?k] =>
           let E := fresh "E" in
           destruct (String.eqb f k) eqn:E;
           [ apply String.eqb_eq in E; subst f
           | apply String.eqb_neq in E ]
       end;
       cbn [orb];
       [ try (rewrite lookup_insert_eq; reflexivity);
         try (rewrite lookup_insert_ne by discriminate)
       | rewrite lookup_insert_ne by congruence ]);
    try (rewrite lookup_insert_eq; reflexivity);
    try congruence.
    rewrite ?lookup_insert_ne by congruence. apply lookup_empty.
Qed.

Lemma patient_field_eqb (f : string) :
  existsb (String.eqb f) patient_fields = true <-> In f patient_fields.
Proof.
  rewrite existsb_exists. split.
  - intros [k [Hin Heq]]. apply String.eqb_eq in Heq. now subst k.
  - intros Hin. exists f. split; [exact Hin | apply String.eqb_refl].
Qed.

(** An extraction returns the post-processed answer of the service, if it
    obtains one, and an error otherwise. *)
Lemma extract_answer (text : string) (log : list ServiceCall) :
  fst (extract table reason_extract text log) =
  match extraction_answer reason_extract text log with
  | Some raw => Return (postprocess table raw)
  | None => Throw (ExternalServiceError "extract")
  end.
Proof.
  unfold extract, extraction_answer, bind, ret, with_retry, try_catch, throw,
    ask_extraction.
  destruct (reason_extract (length log) text) as [[|]|raw]; cbn; try reflexivity.
  destruct (reason_extract _ text) as [f|raw]; reflexivity.
Qed.

(** With symptoms to go on, [diagnose] does call the service. *)
Lemma diagnose_calls_service (e : MedicalExtraction) (log : list ServiceCall) :
  symptoms e <> [] ->
  exists more,
    snd (diagnose reason_diagnose e log) = log ++ DiagnosisPrompt e :: more.
Proof.
  intros Hne. unfold diagnose. destruct (symptoms e) as [|s rest]; [congruence|].
  unfold with_retry, try_catch, throw, ask_diagnosis.
  destruct (reason_diagnose (length log) e) as [[|]|dx]; cbn.
  - destruct (reason_diagnose _ e) as [f|dx]; cbn;
      rewrite <- app_assoc; eexists; reflexivity.
  - eexists; reflexivity.
  - eexists; reflexivity.
Qed.

End ToolFacts.

(* ===================================================================== *)
(** ** More on the string built-ins *)
(* ===================================================================== *)

Section TrimFacts.
Import JsString ChatControls.

Lemma append_cons (c : ascii) (a b : string) :
  String c a +:+ b = String c (a +:+ b).
Proof. reflexivity. Qed.

Lemma append_nil (b : string) : "" +:+ b = b.
Proof. reflexivity. Qed.

Lemma append_empty_r (s : string) : s +:+ "" = s.
Proof.
  induction s as [|c s IH]; [reflexivity|]. rewrite append_cons. now rewrite IH.
Qed.

Lemma trimStart_split (s : string) :
  exists a, s = a +:+ trimStart s /\ all_blank a = true.
Proof.
  induction s as [|c s [a [Hs Ha]]]; simpl.
  - exists "". split; reflexivity.
  - destruct (isWhiteSpace c) eqn:E.
    + exists (String c a). rewrite append_cons, <- Hs. simpl. rewrite E, Ha.
      split; reflexivity.
    + exists "". split; reflexivity.
Qed.

Lemma trimStart_head (s : string) (c : ascii) (t : string) :
  trimStart s = String c t -> isWhiteSpace c = false.
Proof.
  induction s as [|a s IH]; simpl; [discriminate|].
  destruct (isWhiteSpace a) eqn:E; [exact IH|].
  intros H; inversion H; subst; exact E.
Qed.

Lemma trimEnd_split (s : string) :
  exists b, s = trimEnd s +:+ b /\ all_blank b = true.
Proof.
  induction s as [|c s [b [Hs Hb]]]; simpl.
  - exists "". split; reflexivity.
  - destruct (trimEnd s) as [|d u] eqn:E.
    + rewrite append_nil in Hs. subst b.
      destruct (isWhiteSpace c) eqn:Ec.
      * exists (String c s). rewrite append_nil. simpl. rewrite Ec, Hb.
        split; reflexivity.
      * exists s. split; [reflexivity | exact Hb].
    + exists b. rewrite append_cons, <- Hs. split; [reflexivity | exact Hb].
Qed.

Lemma trimEnd_head (c : ascii) (s : string) :
  isWhiteSpace c = false -> exists t, trimEnd (String c s) = String c t.
Proof.
  intros Hc. simpl. destruct (trimEnd s); rewrite ?Hc; eauto.
Qed.

Lemma trimEnd_last (s : string) :
  match last_char (trimEnd s) with
  | Some d => isWhiteSpace d = false
  | None => trimEnd s = ""
  end.
Proof.
  induction s as [|c s IH]; simpl; [reflexivity|].
  destruct (trimEnd s) as [|d u] eqn:E.
  - destruct (isWhiteSpace c) eqn:Ec; simpl; [reflexivity | exact Ec].
  - change (last_char (String c (String d u))) with (last_char (String d u)).
    destruct (last_char (String d u)); [exact IH | discriminate].
Qed.

(** [trim] removes white space, and only white space, from both ends. *)
Lemma trim_split (s : string) :
  exists a b, s = a +:+ trim s +:+ b /\ all_blank a = true /\ all_blank b = true.
Proof.
  destruct (trimStart_split s) as [a [Hs Ha]].
  destruct (trimEnd_split (trimStart s)) as [b [Ht Hb]].
  exists a, b. unfold trim. rewrite <- Ht. auto.
Qed.

Lemma trim_ends (s : string) :
  trim s = "" \/
  exists c rest d,
    trim s = String c rest /\ isWhiteSpace c = false /\
    last_char (trim s) = Some d /\ isWhiteSpace d = false.
Proof.
  unfold trim. pose proof (trimEnd_last (trimStart s)) as Hlast.
  destruct (trimStart s) as [|c t] eqn:E; [left; reflexivity|].
  pose proof (trimStart_head _ _ _ E) as Hc.
  destruct (trimEnd_head c t Hc) as [rest Hrest].
  right. rewrite Hrest in *.
  destruct (last_char (String c rest)) as [d|]; [|discriminate].
  exists c, rest, d. auto.
Qed.

Lemma toLowerCase_app (a b : string) :
  toLowerCase (a +:+ b) = toLowerCase a +:+ toLowerCase b.
Proof.
  induction a as [|c a IH]; [reflexivity|].
  rewrite append_cons. simpl. now rewrite IH.
Qed.

Lemma slice0_length (n : nat) (s : string) :
  String.length (slice0 n s) = Nat.min n (String.length s).
Proof.
  revert s; induction n as [|n IH]; intros [|c s]; simpl; try reflexivity.
  now rewrite IH.
Qed.

Lemma slice0_prefix (n : nat) (s : string) :
  exists rest, s = slice0 n s +:+ rest.
Proof.
  revert s; induction n as [|n IH]; intros [|c s]; simpl;
    try (eexists; reflexivity).
  destruct (IH s) as [rest Hrest]. exists rest. now rewrite append_cons, <- Hrest.
Qed.

Lemma slice0_all (n : nat) (s : string) :
  (String.length s <= n)%nat -> slice0 n s = s.
Proof.
  revert s; induction n as [|n IH]; intros [|c s] H; simpl in *;
    try reflexivity; try lia.
  rewrite IH by lia. reflexivity.
Qed.

Lemma string_length_app (a b : string) :
  String.length (a +:+ b) = (String.length a + String.length b)%nat.
Proof.
  induction a as [|c a IH]; [reflexivity|].
  rewrite append_cons. simpl. now rewrite IH.
Qed.

Lemma tally_length (k : nat) : String.length (MoreExamples.tally k) = k.
Proof. induction k; simpl; [reflexivity | now rewrite IHk]. Qed.

Lemma tally_never_repeats : never_repeats MoreExamples.tally.
Proof.
  intros j k H. apply (f_equal String.length) in H.
  now rewrite !tally_length in H.
Qed.

End TrimFacts.

(* ===================================================================== *)
(** ** The chat component: every handler, every outcome *)
(* ===================================================================== *)

Section ControlFacts.
Import Effects ApiOps ChatInterface Trace ChatControls.

Variable server : Server.
Variable uuid_of : nat -> string.
Variable date_of : nat -> Z.
Variable URL_pathname : string -> option string.

Ltac run_handlers :=
  unfold setMessages, setInputMessage, setIsLoading, setIsProcessingAudio,
    setShowAudioUrlModal, setAudioUrl, setNotification, showNotification,
    alert, setTimeout, on_state, on_world, uuidv4, Date_new, await, lift,
    modify, get, bind, try_catch, try_finally, ret, throw.

(** The first check: a blank URL is answered by a dialog. *)
Lemma handleAudioUrlSubmit_blank (sys : Sys) :
  JsString.truthy (JsString.trim (audioUrl (state sys))) = false ->
  handleAudioUrlSubmit server uuid_of date_of URL_pathname sys =
  alert "Please enter an audio URL" sys.
Proof.
  intros H. unfold handleAudioUrlSubmit. unfold bind at 1. unfold get at 1.
  now rewrite H.
Qed.

(** The second check: so is a URL that does not look like audio. *)
Lemma handleAudioUrlSubmit_invalid (sys : Sys) :
  JsString.truthy (JsString.trim (audioUrl (state sys))) = true ->
  validateAudioUrl URL_pathname (audioUrl (state sys)) = false ->
  handleAudioUrlSubmit server uuid_of date_of URL_pathname sys =
  alert "Please enter a valid audio URL (MP3, WAV, M4A, OGG, FLAC, AAC)" sys.
Proof.
  intros Ht Hv. unfold handleAudioUrlSubmit. unfold bind at 1. unfold get at 1.
  now rewrite Ht, Hv.
Qed.

(** Past the checks, the handler completes normally whatever the back end
    does, in the state spelled out here. *)
Lemma handleAudioUrlSubmit_settles (sys : Sys) :
  JsString.truthy (JsString.trim (audioUrl (state sys))) = true ->
  validateAudioUrl URL_pathname (audioUrl (state sys)) = true ->
  handleAudioUrlSubmit server uuid_of date_of URL_pathname sys =
  (Return tt,
   {| state :=
        {| messages := audio_transcript server uuid_of date_of sys;
           inputMessage := inputMessage (state sys);
           isLoading := false;
           isProcessingAudio := false;
           showAudioUrlModal := false;
           audioUrl := "";
           notification :=
             if transcribed server sys then Some "Transcription completed"
             else notification (state sys);
           sessionId := sessionId (state sys) |};
      world :=
        {| uuid_count :=
             (if transcribed server sys then 3 else 2) + uuid_count (world sys);
           date_count :=
             (if transcribed server sys then 3 else 2) + date_count (world sys);
           requests := requests (world sys) ++ audio_requests server sys;
           alerts := alerts (world sys);
           timers :=
             timers (world sys) ++ (if transcribed server sys then [3000%Z] else [])
        |} |}).
Proof.
  intros Ht Hv. rewrite handleAudioUrlSubmit_enter by assumption.
  unfold audio_transcript, audio_requests, transcribed, audioSubmitBody,
    audioSubmitCatch, audioSubmitFinally, audio_started,
    transcription_outcome, transcribed_outcome.
  run_handlers.
  cbn -[Api.sendChatMessage Api.transcribeAudioFromUrl request_of String.append
        List.filter].
  rewrite transcribeAudioFromUrl_run.
  cbn -[Api.sendChatMessage request_of String.append List.filter].
  destruct (serve_transcription server _ _) as [d|e];
    cbn -[Api.sendChatMessage request_of String.append List.filter].
  - rewrite sendChatMessage_run.
    cbn -[request_of String.append List.filter].
    destruct (serve_chat server _ _) as [reply|e];
      cbn -[request_of String.append List.filter];
      rewrite <- ?app_assoc, ?app_nil_r; reflexivity.
  - rewrite <- ?app_assoc, ?app_nil_r. reflexivity.
Qed.

(** The three ways the audio handler can go. *)
Lemma handleAudioUrlSubmit_cases (sys : Sys) :
  handleAudioUrlSubmit server uuid_of date_of URL_pathname sys =
    alert "Please enter an audio URL" sys \/
  handleAudioUrlSubmit server uuid_of date_of URL_pathname sys =
    alert "Please enter a valid audio URL (MP3, WAV, M4A, OGG, FLAC, AAC)" sys \/
  (JsString.truthy (JsString.trim (audioUrl (state sys))) = true /\
   validateAudioUrl URL_pathname (audioUrl (state sys)) = true).
Proof.
  destruct (JsString.truthy (JsString.trim (audioUrl (state sys)))) eqn:Ht.
  - destruct (validateAudioUrl URL_pathname (audioUrl (state sys))) eqn:Hv.
    + right; right. split; reflexivity.
    + right; left. now apply handleAudioUrlSubmit_invalid.
  - left. now apply handleAudioUrlSubmit_blank.
Qed.

(** The two ways the send handler can go. *)
Lemma handleSendMessage_cases (sys : Sys) :
  (JsString.trim (inputMessage (state sys)) = "" \/ isLoading (state sys) = true) \/
  (JsString.trim (inputMessage (state sys)) <> "" /\ isLoading (state sys) = false).
Proof.
  destruct (JsString.trim (inputMessage (state sys))); [left; left; reflexivity|].
  destruct (isLoading (state sys)); [left; right; reflexivity|].
  right. split; [discriminate | reflexivity].
Qed.

(** *** Identifiers *)

Lemma drawn_nil (n : nat) : drawn uuid_of n [].
Proof. split; [constructor | intros m []]. Qed.

Lemma drawn_mono (n n' : nat) (l : list Msg.Message) :
  (n <= n')%nat -> drawn uuid_of n l -> drawn uuid_of n' l.
Proof.
  intros Hle [Hnd Hin]. split; [exact Hnd|].
  intros m Hm. destruct (Hin m Hm) as [k [Hk Hid]]. exists k. split; [lia | exact Hid].
Qed.

Lemma drawn_filter (p : Msg.Message -> bool) (n : nat) (l : list Msg.Message) :
  drawn uuid_of n l -> drawn uuid_of n (List.filter p l).
Proof.
  intros [Hnd Hin]. split.
  - clear Hin. induction l as [|m l IH]; simpl; [constructor|].
    inversion Hnd as [|? ? Hnotin Hnd']; subst.
    destruct (p m); simpl; [constructor|]; auto.
    intros Hin. apply Hnotin. apply list_elem_of_In.
    apply list_elem_of_In, in_map_iff in Hin.
    destruct Hin as [m' [Hid Hm']]. apply filter_In in Hm'.
    apply in_map_iff. exists m'. tauto.
  - intros m Hm. apply filter_In in Hm. now apply Hin.
Qed.

Lemma drawn_snoc (n : nat) (l : list Msg.Message) (m : Msg.Message) :
  never_repeats uuid_of ->
  drawn uuid_of n l -> Msg.id m = uuid_of n ->
  drawn uuid_of (S n) (l ++ [m]).
Proof.
  intros Hinj [Hnd Hin] Hid. split.
  - rewrite map_app. simpl. apply NoDup_app. split; [exact Hnd|]. split.
    + intros x Hx Hx'. apply list_elem_of_In in Hx, Hx'.
      destruct Hx' as [Hx'|[]]. subst x.
      apply in_map_iff in Hx. destruct Hx as [m' [Heq Hm']].
      destruct (Hin m' Hm') as [k [Hk Hidk]].
      rewrite Hid, Hidk in Heq. apply Hinj in Heq. lia.
    + apply NoDup_singleton.
  - intros m' Hm'. apply in_app_or in Hm'. destruct Hm' as [Hm'|[<-|[]]].
    + destruct (Hin m' Hm') as [k [Hk Hidk]]. exists k. split; [lia | exact Hidk].
    + exists n. split; [lia | exact Hid].
Qed.


Lemma filter_not_system_snoc (l : list Msg.Message) (m : Msg.Message) :
  Msg.type m = Msg.system ->
  List.filter Msg.not_system (l ++ [m]) = List.filter Msg.not_system l.
Proof.
  intros Hsys. rewrite List.filter_app. cbn [List.filter].
  unfold Msg.not_system at 2. rewrite Hsys. cbn. apply app_nil_r.
Qed.

(** *** What the handlers keep *)

Lemma keeps_refl (sys : Sys) : keeps uuid_of sys sys.
Proof.
  split; [reflexivity|]. split; [now right|]. split; [now right|]. split; [|auto].
  exists []. rewrite app_nil_r. split; [reflexivity | constructor].
Qed.

Lemma keeps_trans (a b c : Sys) :
  keeps uuid_of a b -> keeps uuid_of b c -> keeps uuid_of a c.
Proof.
  intros [Hs1 [Hl1 [Hp1 [[n1 [Hr1 Hf1]] Hi1]]]] [Hs2 [Hl2 [Hp2 [[n2 [Hr2 Hf2]] Hi2]]]].
  split; [congruence|]. split; [|split; [|split]].
  - destruct Hl2 as [H|H]; [now left|]. rewrite H. exact Hl1.
  - destruct Hp2 as [H|H]; [now left|]. rewrite H. exact Hp1.
  - exists (n1 ++ n2). rewrite Hr2, Hr1, app_assoc. split; [reflexivity|].
    apply Forall_app. split; [exact Hf1|]. now rewrite <- Hs1.
  - auto.
Qed.

(** A handler that only sets cells other than the transcript, the busy
    flags and the session id keeps everything. *)
Lemma keeps_cells (sys out : Sys) :
  messages (state out) = messages (state sys) ->
  isLoading (state out) = isLoading (state sys) ->
  isProcessingAudio (state out) = isProcessingAudio (state sys) ->
  sessionId (state out) = sessionId (state sys) ->
  requests (world out) = requests (world sys) ->
  uuid_count (world out) = uuid_count (world sys) ->
  keeps uuid_of sys out.
Proof.
  intros Hm Hl Hp Hs Hr Hu. split; [exact Hs|]. split; [now right|].
  split; [now right|]. split.
  - exists []. rewrite app_nil_r. split; [exact Hr | constructor].
  - intros _. unfold ids_drawn. now rewrite Hm, Hu.
Qed.

Lemma handleSendMessage_keeps (sys : Sys) :
  keeps uuid_of sys (snd (handleSendMessage server uuid_of date_of sys)).
Proof.
  destruct (handleSendMessage_cases sys) as [Hskip|[Hne Hload]].
  - rewrite handleSendMessage_skip by exact Hskip. apply keeps_refl.
  - rewrite handleSendMessage_run by assumption. cbn [snd].
    split; [reflexivity|]. split; [now left|]. split; [now right|]. split.
    + eexists. split; [reflexivity|]. constructor; [|constructor].
      right. eexists. reflexivity.
    + intros Hinj Hids. unfold ids_drawn in *.
      cbn [state world messages uuid_count].
      change (messages (state sys)
              ++ [sent_user_message uuid_of date_of sys;
                  reply_message uuid_of date_of 1 sys "Error: "
                    (sent_outcome server sys)])
        with (messages (state sys)
              ++ [sent_user_message uuid_of date_of sys]
              ++ [reply_message uuid_of date_of 1 sys "Error: "
                    (sent_outcome server sys)]).
      rewrite app_assoc.
      apply drawn_snoc; [exact Hinj| |].
      * apply drawn_snoc; [exact Hinj | exact Hids | reflexivity].
      * unfold reply_message. destruct (sent_outcome server sys); reflexivity.
Qed.

Lemma alert_keeps (text : string) (sys : Sys) :
  keeps uuid_of sys (snd (alert text sys)).
Proof. apply keeps_cells; reflexivity. Qed.

Lemma handleAudioUrlSubmit_keeps (sys : Sys) :
  keeps uuid_of sys
    (snd (handleAudioUrlSubmit server uuid_of date_of URL_pathname sys)).
Proof.
  destruct (handleAudioUrlSubmit_cases sys) as [H|[H|[Ht Hv]]];
    try (rewrite H; apply alert_keeps).
  rewrite handleAudioUrlSubmit_settles by assumption. cbn [snd].
  split; [reflexivity|]. split; [now left|]. split; [now left|]. split.
  - eexists. split; [reflexivity|]. unfold audio_requests.
    destruct (transcription_outcome server sys).
    + constructor; [left; eexists; reflexivity|].
      constructor; [right; eexists; reflexivity | constructor].
    + constructor; [left; eexists; reflexivity | constructor].
  - intros Hinj Hids. unfold ids_drawn in *.
    cbn [state world messages uuid_count].
    unfold audio_transcript, transcribed.
    assert (Hproc : drawn uuid_of (S (uuid_count (world sys)))
                      (messages (state sys)
                       ++ [processing_message uuid_of date_of sys])).
    { apply drawn_snoc; [exact Hinj | exact Hids | reflexivity]. }
    destruct (transcription_outcome server sys) as [d|e].
    + assert (Huser : drawn uuid_of (S (S (uuid_count (world sys))))
                        (List.filter
                           (Msg.id_differs
                              (Msg.id (processing_message uuid_of date_of sys)))
                           (messages (state sys)
                            ++ [processing_message uuid_of date_of sys])
                         ++ [stamped uuid_of date_of 1 sys Msg.user
                               (transcription d)])).
      { apply drawn_snoc; [exact Hinj | now apply drawn_filter | reflexivity]. }
      destruct (transcribed_outcome server sys (transcription d)).
      * apply drawn_snoc; [exact Hinj | exact Huser | reflexivity].
      * apply drawn_snoc; [exact Hinj | now apply drawn_filter | reflexivity].
    + apply drawn_snoc; [exact Hinj | now apply drawn_filter | reflexivity].
Qed.

(** Every event is handled to normal completion and keeps the lot. *)
Lemma dispatch_keeps (ev : Event) (sys : Sys) :
  fst (dispatch server uuid_of date_of URL_pathname ev sys) = Return tt /\
  keeps uuid_of sys (snd (dispatch server uuid_of date_of URL_pathname ev sys)).
Proof.
  destruct ev as [v|e| | |text| |v|e| | | ]; cbn [dispatch];
    unfold handleKeyPress, handleUrlKeyPress.
  - split; [reflexivity | apply keeps_cells; reflexivity].
  - destruct (String.eqb (key e) "Enter" && negb (shiftKey e)).
    + split; [|apply handleSendMessage_keeps].
      destruct (handleSendMessage_cases sys) as [Hskip|[Hne Hload]];
        [rewrite handleSendMessage_skip | rewrite handleSendMessage_run];
        auto.
    + split; [reflexivity | apply keeps_refl].
  - split; [|apply handleSendMessage_keeps].
    destruct (handleSendMessage_cases sys) as [Hskip|[Hne Hload]];
      [rewrite handleSendMessage_skip | rewrite handleSendMessage_run];
      auto.
  - split; [reflexivity|]. split; [reflexivity|]. split; [now right|].
    split; [now right|]. split.
    + exists []. rewrite app_nil_r. split; [reflexivity | constructor].
    + intros _ _. apply drawn_nil.
  - split; [reflexivity | apply keeps_cells; reflexivity].
  - split; [reflexivity | apply keeps_cells; reflexivity].
  - split; [reflexivity | apply keeps_cells; reflexivity].
  - destruct (String.eqb (key e) "Enter").
    + split; [|apply handleAudioUrlSubmit_keeps].
      destruct (handleAudioUrlSubmit_cases sys) as [H|[H|[Ht Hv]]];
        [rewrite H | rewrite H | rewrite handleAudioUrlSubmit_settles by assumption];
        reflexivity.
    + destruct (String.eqb (key e) "Escape").
      * split; [reflexivity | apply keeps_cells; reflexivity].
      * split; [reflexivity | apply keeps_refl].
  - split; [|apply handleAudioUrlSubmit_keeps].
    destruct (handleAudioUrlSubmit_cases sys) as [H|[H|[Ht Hv]]];
      [rewrite H | rewrite H | rewrite handleAudioUrlSubmit_settles by assumption];
      reflexivity.
  - split; [reflexivity | apply keeps_cells; reflexivity].
  - split; [reflexivity | apply keeps_cells; reflexivity].
Qed.

Lemma run_events_keeps (evs : list Event) (sys : Sys) :
  keeps uuid_of sys (run_events server uuid_of date_of URL_pathname evs sys).
Proof.
  revert sys; induction evs as [|ev evs IH]; intros sys; simpl.
  - apply keeps_refl.
  - eapply keeps_trans; [apply dispatch_keeps | apply IH].
Qed.

End ControlFacts.

(* ===================================================================== *)
(** ** The status page *)
(* ===================================================================== *)

Section PageFacts.
Import Effects ApiOps StatusPage.

Variable server : Server.
Variable date_of : nat -> Z.
Variable window_confirm : string -> bool.

Ltac run_page :=
  unfold setActiveTab, setSystemStatus, setIsBackendConnected, setSessions,
    setIsLoadingSessions, setLastUpdated, StatusPage.alert, on_app, on_panel,
    StatusPage.Date_new, StatusPage.await, lift, modify, get, bind, try_catch,
    try_finally, ret, throw.

(** The calls with a one-branch [catch]. *)
Lemma plain_call_run (op : Operation) (w : World) :
  plain_catch op = true ->
  match op with
  | HealthCheck => Api.healthCheck server w
  | GetSessions => Api.getSessions server w
  | _ => Api.getStatus server w
  end =
  (match serve_json server (requests w) (request_of op) with
   | Axios.Fulfilled d => Return d
   | Axios.Rejected e =>
       Throw {| Api.message := failure_prefix op +:+ ": " +:+ Axios.message e |}
   end, Api.log_request (request_of op) w).
Proof.
  intros Hplain. destruct op; try discriminate;
    unfold Api.healthCheck, Api.getSessions, Api.getStatus, Api.api_get, Api.send,
      bind, try_catch, ret, throw;
    cbn -[Api.log_request String.append];
    destruct (serve_json server (requests w) _); reflexivity.
Qed.

Lemma deleteSession_run (sid : string) (w : World) :
  Api.deleteSession server sid w =
  (match serve_json server (requests w) (request_of (DeleteSession sid)) with
   | Axios.Fulfilled d => Return d
   | Axios.Rejected e => Throw {| Api.message := failure_text (DeleteSession sid) e |}
   end, Api.log_request (request_of (DeleteSession sid)) w).
Proof.
  unfold Api.deleteSession, Api.api_delete, Api.send, Api.read_detail, failure_text,
    bind, try_catch, ret, throw.
  cbn -[Api.log_request String.append].
  destruct (serve_json server (requests w) _) as [d|e];
    cbn -[Api.log_request String.append]; [reflexivity|].
  destruct (Axios.response e) as [resp|]; [|reflexivity].
  destruct (Axios.data_error resp); reflexivity.
Qed.

(** [checkBackendConnection], outcome by outcome. *)
Lemma checkBackendConnection_run (p : Page) :
  checkBackendConnection server p =
  (Return tt,
   match health_outcome server p with
   | Axios.Rejected _ =>
       {| app := {| activeTab := activeTab (app p);
                    systemStatus := systemStatus (app p);
                    isBackendConnected := false |};
          panel := panel p;
          world := Api.log_request (request_of HealthCheck) (world p) |}
   | Axios.Fulfilled _ =>
       {| app := {| activeTab := activeTab (app p);
                    systemStatus :=
                      match status_outcome server p with
                      | Axios.Fulfilled s => Some s
                      | Axios.Rejected _ => systemStatus (app p)
                      end;
                    isBackendConnected :=
                      match status_outcome server p with
                      | Axios.Fulfilled _ => true
                      | Axios.Rejected _ => false
                      end |};
          panel := panel p;
          world := Api.log_request (request_of GetStatus)
                     (Api.log_request (request_of HealthCheck) (world p)) |}
   end).
Proof.
  unfold checkBackendConnection, health_outcome, status_outcome. run_page.
  rewrite (plain_call_run HealthCheck (world p) eq_refl).
  cbn -[Api.log_request request_of Api.getStatus].
  destruct (serve_json server (requests (world p)) (request_of HealthCheck));
    cbn -[Api.log_request request_of Api.getStatus]; [|reflexivity].
  rewrite (plain_call_run GetStatus _ eq_refl).
  cbn -[Api.log_request request_of].
  destruct (serve_json server _ (request_of GetStatus)); reflexivity.
Qed.

(** [loadSessions], outcome by outcome. *)
Lemma loadSessions_run (p : Page) :
  loadSessions server date_of p =
  (Return tt,
   match sessions_outcome server p with
   | Axios.Fulfilled body =>
       {| app := app p;
          panel := {| sessions := Some body; isLoadingSessions := false;
                      lastUpdated := date_of (date_count (world p)) |};
          world := {| uuid_count := uuid_count (world p);
                      date_count := S (date_count (world p));
                      requests := requests (world p) ++ [request_of GetSessions];
                      alerts := alerts (world p);
                      timers := timers (world p) |} |}
   | Axios.Rejected _ =>
       {| app := app p;
          panel := {| sessions := sessions (panel p); isLoadingSessions := false;
                      lastUpdated := lastUpdated (panel p) |};
          world := Api.log_request (request_of GetSessions) (world p) |}
   end).
Proof.
  unfold loadSessions, sessions_outcome. run_page.
  cbn -[Api.log_request request_of Api.getSessions].
  rewrite (plain_call_run GetSessions (world p) eq_refl).
  cbn -[Api.log_request request_of].
  destruct (serve_json server (requests (world p)) (request_of GetSessions));
    reflexivity.
Qed.

(** The delete button, outcome by outcome: a declined dialog stops
    everything; a rejected DELETE is reported; after a fulfilled DELETE the
    session list and then the connection are refreshed. *)
Lemma deleteSessionClicked_run (sid : string) (p : Page) :
  deleteSessionClicked server date_of window_confirm sid p =
  (Return tt,
   if window_confirm "Are you sure you want to delete this session?" then
     match delete_outcome server sid p with
     | Axios.Fulfilled _ =>
         snd (checkBackendConnection server
                (snd (loadSessions server date_of (after_delete sid p))))
     | Axios.Rejected e =>
         snd (StatusPage.alert
                ("Failed to delete session: " +:+ failure_text (DeleteSession sid) e)
                (after_delete sid p))
     end
   else p).
Proof.
  unfold deleteSessionClicked, handleDeleteSession, delete_outcome, after_delete.
  destruct (window_confirm _); [|reflexivity]. cbn [negb].
  unfold try_catch, bind at 1, StatusPage.await, lift.
  rewrite deleteSession_run.
  destruct (serve_json server (requests (world p)) _) as [d|e].
  - unfold bind. cbn [fst snd].
    pose proof (loadSessions_run
                  {| app := app p; panel := panel p;
                     world := Api.log_request (request_of (DeleteSession sid))
                                (world p) |}) as HL.
    destruct (loadSessions server date_of _) as [r1 p1].
    inversion HL as [[Hr1 Hp1]]. rewrite <- Hp1. cbn [snd].
    pose proof (checkBackendConnection_run p1) as HC.
    destruct (checkBackendConnection server p1) as [r2 p2].
    inversion HC. reflexivity.
  - reflexivity.
Qed.

End PageFacts.

(* ===================================================================== *)
(** ** The audio URL check *)
(* ===================================================================== *)

(** C8: for every input string, [validateAudioUrl] returns a boolean (it is
    a total function: a string the [URL] constructor rejects yields
    [false]); it returns [true] exactly when the string parses as a URL
    whose lower-cased path contains ".mp3", ".wav", ".m4a", ".ogg", ".flac"
    or ".aac" at any position, with arbitrary text before and after. *)
Theorem validateAudioUrl_accepts_iff
        (URL_pathname : string -> option string) (s : string) :
  (ChatInterface.validateAudioUrl URL_pathname s = true <->
   exists pathname ext pre post,
     URL_pathname s = Some pathname /\
     In ext ["mp3"; "wav"; "m4a"; "ogg"; "flac"; "aac"] /\
     JsString.toLowerCase pathname = pre +:+ ("." +:+ ext) +:+ post)
  /\ (URL_pathname s = None -> ChatInterface.validateAudioUrl URL_pathname s = false).
Proof.
  unfold ChatInterface.validateAudioUrl, ChatInterface.audioExtensions.
  split.
  - destruct (URL_pathname s) as [pathname|].
    + rewrite existsb_exists. split.
      * intros [ext [Hin Hinc]]. apply includes_spec in Hinc.
        destruct Hinc as [pre [post Heq]]. now exists pathname, ext, pre, post.
      * intros [p [ext [pre [post [Hp [Hin Heq]]]]]]. inversion Hp; subst p.
        exists ext. split; [exact Hin|]. apply includes_spec. now exists pre, post.
    + split; [discriminate|]. intros [p [ext [pre [post [Hp _]]]]]. discriminate.
  - intros ->. reflexivity.
Qed.

(** An extension in the middle of the path is enough, and the check is
    case-insensitive. *)
Example validateAudioUrl_inner_extension :
  ChatInterface.validateAudioUrl Examples.URL_pathname
    "https://example.com/take.MP3/notes.txt" = true
  /\ ChatInterface.validateAudioUrl Examples.URL_pathname
       "https://example.com/notes.txt" = false
  /\ ChatInterface.validateAudioUrl Examples.URL_pathname "audio.mp3" = false.
Proof. repeat split; vm_compute; reflexivity. Qed.

(* ===================================================================== *)
(** ** Timeouts *)
(* ===================================================================== *)

(** C7: the axios instance configures no timeout, and every function of the
    service layer issues one request whose timeout is unset, except
    [transcribeAudioFromUrl], whose request alone carries 120000 ms. *)
Theorem timeout_only_for_transcription
        (server : Server) (op : ApiOps.Operation) (w : World) :
  Axios.timeout Api.api = None /\
  exists r,
    ApiOps.issued (ApiOps.perform server op) w = [r] /\
    Axios.req_timeout r =
      match op with
      | ApiOps.TranscribeAudioFromUrl _ => Some 120000%Z
      | _ => None
      end.
Proof.
  split; [reflexivity|].
  exists (ApiOps.request_of op). split; [apply perform_issued|].
  destruct op; reflexivity.
Qed.

(* ===================================================================== *)
(** ** The chat turn *)
(* ===================================================================== *)

(** C4, as the claim states it, fails for the empty session id: the caller
    supplies a non-null session id, yet the request has no [session_id]
    field. *)
Lemma sendChatMessage_drops_empty_session_id :
  exists r payload,
    ApiOps.issued (Api.sendChatMessage (Examples.answering "" Examples.reply)
                     "hello" (Some "")) Examples.fresh_world = [r] /\
    Axios.req_data r = Some payload /\
    payload !! "message" = Some (JStr "hello") /\
    payload !! "session_id" = None.
Proof.
  eexists; eexists. split; [|split; [|split]].
  - eapply issued_log_request. apply sendChatMessage_run.
  - reflexivity.
  - apply chatPayload_message.
  - rewrite chatPayload_session_id. reflexivity.
Qed.

(** C4 (amended): every call of [sendChatMessage] issues one request; its
    payload holds the message text, and holds a [session_id] field exactly
    when the caller supplied a session id that is neither null nor the empty
    string, in which case the field is that id unchanged; when the back end
    fulfils the request, the call returns the body it sent, which carries
    the response text, the agent used and a session id. *)
Theorem sendChatMessage_request
        (server : Server) (message_ : string) (sessionId : option string) (w : World) :
  exists r payload,
    ApiOps.issued (Api.sendChatMessage server message_ sessionId) w = [r] /\
    Axios.req_data r = Some payload /\
    payload !! "message" = Some (JStr message_) /\
    (is_Some (payload !! "session_id") <->
     exists sid, sessionId = Some sid /\ sid <> "") /\
    (forall sid, sessionId = Some sid -> sid <> "" ->
                 payload !! "session_id" = Some (JStr sid)) /\
    (forall d : ChatResponse,
        serve_chat server (requests w) r = Axios.Fulfilled d ->
        fst (Api.sendChatMessage server message_ sessionId w) = Effects.Return d).
Proof.
  exists (ApiOps.request_of (ApiOps.SendChatMessage message_ sessionId)),
         (Api.chatPayload message_ sessionId).
  split; [eapply issued_log_request; apply sendChatMessage_run|].
  split; [reflexivity|].
  split; [apply chatPayload_message|].
  rewrite chatPayload_session_id.
  split; [|split].
  - destruct sessionId as [s|].
    + destruct s as [|c s]; simpl.
      * split; [intros [x Hx]; discriminate|].
        intros [sid [H Hne]]. inversion H; subst. congruence.
      * split; [intros _; eexists; split; [reflexivity|discriminate] | eauto].
    + split; [intros [x Hx]; discriminate | intros [sid [H _]]; discriminate].
  - intros sid -> Hne. destruct sid; [congruence | reflexivity].
  - intros d Hd. rewrite sendChatMessage_run, Hd. reflexivity.
Qed.

(* ===================================================================== *)
(** ** Failures of the service layer *)
(* ===================================================================== *)

(** C5, as the claim states it, fails: the health check answered by an error
    body throws a message without the detail the service reported, and a
    chat turn that got no response throws a message that names no operation
    (the very message an extraction would throw). *)
Lemma api_failure_messages_differ_from_claim :
  fst (Api.healthCheck (Examples.rejecting Examples.unavailable) Examples.fresh_world)
  = Effects.Throw
      {| Api.message := "Health check failed: Request failed with status code 503" |}
  /\ Axios.response Examples.unavailable
     = Some {| Axios.status := 503;
               Axios.data_error := Axios.Detail (Some "model not loaded") |}
  /\ JsString.includes "model not loaded"
       "Health check failed: Request failed with status code 503" = false
  /\ fst (Api.sendChatMessage (Examples.rejecting Examples.offline) "hello" None
            Examples.fresh_world)
     = Effects.Throw {| Api.message := "Network error: Network Error" |}
  /\ fst (Api.extractMedicalInfo (Examples.rejecting Examples.offline) "hello"
            Examples.fresh_world)
     = Effects.Throw {| Api.message := "Network error: Network Error" |}
  /\ JsString.includes "Chat" "Network error: Network Error" = false.
Proof. repeat split; vm_compute; reflexivity. Qed.

(** C5 (amended): when the back end rejects the request of an operation,
    the call returns nothing and throws an error.  For the health check, the
    session list and the status the message is the operation's failure text
    followed by the transport's message.  For chat, extraction, diagnosis,
    session deletion and transcription: when the service responded with a
    body, the message is the operation's failure text followed by the error
    detail of the body if it has a non-empty one and by the transport's
    message otherwise; when it responded with a body that is [null] (or
    [undefined]), reading the detail raises a TypeError inside the [catch]
    and that TypeError is what the call throws; when no response was
    received, the message is "Network error: " followed by the transport's
    message. *)
Theorem api_failure_message
        (server : Server) (op : ApiOps.Operation) (w : World) (e : Axios.Error) :
  ApiOps.settle server op w = Axios.Rejected e ->
  exists err,
    ApiOps.perform server op w =
      (Effects.Throw err, Api.log_request (ApiOps.request_of op) w) /\
    (ApiOps.plain_catch op = true ->
     Api.message err = ApiOps.failure_prefix op +:+ ": " +:+ Axios.message e) /\
    (ApiOps.plain_catch op = false ->
     forall resp detail,
       Axios.response e = Some resp ->
       Axios.data_error resp = Axios.Detail detail ->
       Api.message err =
         ApiOps.failure_prefix op +:+ ": " +:+
           match detail with
           | Some text => if JsString.truthy text then text else Axios.message e
           | None => Axios.message e
           end) /\
    (ApiOps.plain_catch op = false ->
     forall resp type_error,
       Axios.response e = Some resp ->
       Axios.data_error resp = Axios.Unreadable type_error ->
       Api.message err = type_error) /\
    (ApiOps.plain_catch op = false ->
     Axios.response e = None ->
     Api.message err = "Network error: " +:+ Axios.message e).
Proof.
  intros Hrej. rewrite perform_settle, Hrej.
  eexists. split; [reflexivity|].
  cbn [Api.message]. unfold ApiOps.failure_text. repeat split.
  - intros ->. reflexivity.
  - intros -> resp detail -> ->. reflexivity.
  - intros -> resp type_error -> ->. reflexivity.
  - intros -> ->. reflexivity.
Qed.

(** The amended C5 at work: deleting a session on a back end that answers
    503 with an error body. *)
Lemma api_failure_message_witness :
  exists err,
    ApiOps.perform (Examples.rejecting Examples.unavailable)
      (ApiOps.DeleteSession "s-1") Examples.fresh_world =
      (Effects.Throw err,
       Api.log_request (ApiOps.request_of (ApiOps.DeleteSession "s-1"))
         Examples.fresh_world) /\
    Api.message err = "Failed to delete session: model not loaded".
Proof.
  destruct (api_failure_message (Examples.rejecting Examples.unavailable)
              (ApiOps.DeleteSession "s-1") Examples.fresh_world Examples.unavailable
              eq_refl) as [err [Hrun [_ [Hresp _]]]].
  exists err. split; [exact Hrun|].
  exact (Hresp eq_refl _ _ eq_refl eq_refl).
Defined.

(** A body that is [null]: the chat turn throws the TypeError of the read,
    which names neither the operation nor a network error. *)
Example api_failure_on_null_body :
  fst (Api.sendChatMessage (Examples.rejecting Examples.bodiless) "hello" None
         Examples.fresh_world)
  = Effects.Throw
      {| Api.message := "Cannot read properties of null (reading 'error')" |}.
Proof. vm_compute. reflexivity. Qed.

(* ===================================================================== *)
(** ** Sending a typed message *)
(* ===================================================================== *)


(** A send that succeeds and a send that fails, on an empty transcript. *)
Example handleSendMessage_runs :
  map Msg.type
    (Trace.transcript_after
       (ChatInterface.handleSendMessage (Examples.answering "" Examples.reply)
          Examples.uuid_of Examples.date_of)
       (Examples.boot (Examples.idle "  I have a cough ")))
  = [Msg.user; Msg.ai]
  /\ map Msg.content
       (Trace.transcript_after
          (ChatInterface.handleSendMessage (Examples.rejecting Examples.offline)
             Examples.uuid_of Examples.date_of)
          (Examples.boot (Examples.idle "  I have a cough ")))
     = ["I have a cough"; "Error: Network error: Network Error"]
  /\ Trace.transcript_after
       (ChatInterface.handleSendMessage (Examples.answering "" Examples.reply)
          Examples.uuid_of Examples.date_of)
       (Examples.boot (Examples.idle "   "))
     = [].
Proof. repeat split; vm_compute; reflexivity. Qed.

(* ===================================================================== *)
(** ** Submitting an audio URL *)
(* ===================================================================== *)

(** C10: when the [try] block of [handleAudioUrlSubmit] throws (the
    processing notice has been appended by then), the transcript left
    behind is the transcript of the moment of failure without any of its
    messages of type [system], followed by exactly one error message; the
    user, AI and error messages of that moment are all kept, in order. *)
Theorem audio_failure_drops_system_messages
        (server : Server) (uuid_of : nat -> string) (date_of : nat -> Z)
        (URL_pathname : string -> option string)
        (sys mid : ChatInterface.Sys) (err : Api.Error) :
  JsString.truthy (JsString.trim (ChatInterface.audioUrl (ChatInterface.state sys)))
  = true ->
  ChatInterface.validateAudioUrl URL_pathname
    (ChatInterface.audioUrl (ChatInterface.state sys)) = true ->
  ChatInterface.audioSubmitBody server uuid_of date_of
    (ChatInterface.audioUrl (ChatInterface.state sys))
    (ChatInterface.sessionId (ChatInterface.state sys))
    (Trace.audio_started sys) = (Effects.Throw err, mid) ->
  exists e,
    Trace.transcript_after
      (ChatInterface.handleAudioUrlSubmit server uuid_of date_of URL_pathname) sys
    = List.filter Msg.not_system (ChatInterface.messages (ChatInterface.state mid))
      ++ [e] /\
    Msg.type e = Msg.error /\
    Msg.content e = "Error transcribing audio: " +:+ Api.message err /\
    (forall m,
        In m (Trace.transcript_after
                (ChatInterface.handleAudioUrlSubmit server uuid_of date_of URL_pathname)
                sys) ->
        Msg.type m <> Msg.system) /\
    (forall m,
        In m (ChatInterface.messages (ChatInterface.state mid)) ->
        Msg.type m <> Msg.system ->
        In m (Trace.transcript_after
                (ChatInterface.handleAudioUrlSubmit server uuid_of date_of URL_pathname)
                sys)).
Proof.
  intros Ht Hv Hbody. unfold Trace.transcript_after.
  rewrite handleAudioUrlSubmit_enter by assumption.
  destruct (audio_catch_run uuid_of date_of _ _ _ _ Hbody)
    as [out [Hrun [Hmsgs _]]].
  rewrite Hrun. cbn [snd]. rewrite Hmsgs.
  eexists. split; [reflexivity|]. split; [reflexivity|]. split; [reflexivity|].
  split.
  - intros m Hin. apply in_app_or in Hin. destruct Hin as [Hin|[<-|[]]].
    + apply filter_In in Hin. destruct Hin as [_ Hns].
      unfold Msg.not_system in Hns. intros Heq. rewrite Heq in Hns. discriminate.
    + discriminate.
  - intros m Hin Hns. apply in_or_app. left. apply filter_In. split; [exact Hin|].
    unfold Msg.not_system. destruct (Msg.type m); try reflexivity. congruence.
Qed.

(** C10 at work: the back end is down; the stale notice and the new one
    are both gone, the earlier exchange is kept, one error is appended. *)
Lemma audio_failure_drops_system_messages_witness :
  map Msg.type
    (Trace.transcript_after
       (ChatInterface.handleAudioUrlSubmit (Examples.rejecting Examples.offline)
          Examples.uuid_of Examples.date_of Examples.URL_pathname)
       Examples.audio_page)
  = [Msg.user; Msg.ai; Msg.error].
Proof.
  destruct (audio_failure_drops_system_messages
              (Examples.rejecting Examples.offline)
              Examples.uuid_of Examples.date_of Examples.URL_pathname
              Examples.audio_page
              (snd (ChatInterface.audioSubmitBody (Examples.rejecting Examples.offline)
                      Examples.uuid_of Examples.date_of
                      "https://example.com/visit.mp3" "s-1"
                      (Trace.audio_started Examples.audio_page)))
              {| Api.message := "Network error: Network Error" |})
    as [e [Hfinal [Htype _]]].
  - vm_compute. reflexivity.
  - vm_compute. reflexivity.
  - vm_compute. reflexivity.
  - rewrite Hfinal, map_app. cbn [map]. rewrite Htype. vm_compute. reflexivity.
Defined.

(** C6, as the claim states it, fails.  A transcription with surrounding
    blanks is sent as it is, while the same text typed is sent trimmed; a
    blank transcription is sent and recorded, while blank typed text is not
    sent at all. *)
Lemma audio_text_differs_from_typed_text :
  Trace.comp_issued
    (ChatInterface.handleAudioUrlSubmit (Examples.answering " hello " Examples.reply)
       Examples.uuid_of Examples.date_of Examples.URL_pathname)
    Examples.audio_page
  = [ApiOps.request_of (ApiOps.TranscribeAudioFromUrl "https://example.com/visit.mp3");
     ApiOps.request_of (ApiOps.SendChatMessage " hello " (Some "s-1"))]
  /\
  Trace.comp_issued
    (ChatInterface.handleSendMessage (Examples.answering " hello " Examples.reply)
       Examples.uuid_of Examples.date_of)
    (Trace.typed " hello " Examples.audio_page)
  = [ApiOps.request_of (ApiOps.SendChatMessage "hello" (Some "s-1"))]
  /\
  Api.chatPayload " hello " (Some "s-1") !! "message" = Some (JStr " hello ")
  /\
  Api.chatPayload "hello" (Some "s-1") !! "message" = Some (JStr "hello")
  /\
  Trace.comp_issued
    (ChatInterface.handleAudioUrlSubmit (Examples.answering "" Examples.reply)
       Examples.uuid_of Examples.date_of Examples.URL_pathname)
    Examples.audio_page
  = [ApiOps.request_of (ApiOps.TranscribeAudioFromUrl "https://example.com/visit.mp3");
     ApiOps.request_of (ApiOps.SendChatMessage "" (Some "s-1"))]
  /\
  Trace.comp_issued
    (ChatInterface.handleSendMessage (Examples.answering "" Examples.reply)
       Examples.uuid_of Examples.date_of)
    (Trace.typed "" Examples.audio_page)
  = []
  /\
  map Msg.content
    (Trace.transcript_after
       (ChatInterface.handleAudioUrlSubmit (Examples.answering "" Examples.reply)
          Examples.uuid_of Examples.date_of Examples.URL_pathname)
       Examples.audio_page)
  = ["I have a cough"; "Processing audio from URL: https://example.com/old.wav...";
     "Since when?"; ""; "Please describe the symptoms."]
  /\
  Trace.transcript_after
    (ChatInterface.handleSendMessage (Examples.answering "" Examples.reply)
       Examples.uuid_of Examples.date_of)
    (Trace.typed "" Examples.audio_page)
  = Examples.earlier.
Proof.
  split; [|split; [|split; [|split; [|split; [|split; [|split]]]]]].
  - apply (handleAudioUrlSubmit_transcribed _ _ _ _ Examples.audio_page
             {| transcription := " hello " |}); reflexivity.
  - apply (handleSendMessage_typed _ _ _ " hello " Examples.audio_page);
      [discriminate | reflexivity].
  - apply chatPayload_message.
  - apply chatPayload_message.
  - apply (handleAudioUrlSubmit_transcribed _ _ _ _ Examples.audio_page
             {| transcription := "" |}); reflexivity.
  - apply (handleSendMessage_typed_blank _ _ _ "" Examples.audio_page). reflexivity.
  - vm_compute. reflexivity.
  - apply (handleSendMessage_typed_blank _ _ _ "" Examples.audio_page). reflexivity.
Qed.

(** C6 (amended): for an audio URL that passes the two checks of the
    handler and whose transcription succeeds, the audio handler issues,
    after the transcription request, exactly one chat request, carrying the
    transcribed text as returned (not trimmed, and also when it is blank)
    and the component's session id, whether or not the component is loading;
    the transcript it leaves ends with a user message whose content is the
    transcribed text, followed by one AI message (chat fulfilled) or error
    message (chat rejected).  Typing the same text as a normal chat message
    issues the same chat request and records a user message of the same
    content when the text is non-blank, has no surrounding white space and
    the component is not loading.  In general a typed message that is
    non-blank, with the component not loading, is sent and recorded trimmed,
    and typing sends and records nothing when the text is blank or the
    component is loading. *)
Theorem audio_transcription_is_sent_as_chat
        (server : Server) (uuid_of : nat -> string) (date_of : nat -> Z)
        (URL_pathname : string -> option string)
        (sys : ChatInterface.Sys) (d : TranscriptionResponse) :
  JsString.truthy (JsString.trim (ChatInterface.audioUrl (ChatInterface.state sys)))
  = true ->
  ChatInterface.validateAudioUrl URL_pathname
    (ChatInterface.audioUrl (ChatInterface.state sys)) = true ->
  Trace.transcription_outcome server sys = Axios.Fulfilled d ->
  Trace.comp_issued
    (ChatInterface.handleAudioUrlSubmit server uuid_of date_of URL_pathname) sys
  = [ApiOps.request_of
       (ApiOps.TranscribeAudioFromUrl (ChatInterface.audioUrl (ChatInterface.state sys)));
     ApiOps.request_of
       (ApiOps.SendChatMessage (transcription d)
          (Some (ChatInterface.sessionId (ChatInterface.state sys))))]
  /\
  (exists pre u r,
      Trace.transcript_after
        (ChatInterface.handleAudioUrlSubmit server uuid_of date_of URL_pathname) sys
      = pre ++ [u; r] /\
      Msg.type u = Msg.user /\
      Msg.content u = transcription d /\
      match Trace.transcribed_outcome server sys (transcription d) with
      | Axios.Fulfilled reply => Msg.type r = Msg.ai /\ Msg.content r = response reply
      | Axios.Rejected e => Msg.type r = Msg.error
      end)
  /\
  (JsString.trim (transcription d) = transcription d ->
   transcription d <> "" ->
   ChatInterface.isLoading (ChatInterface.state sys) = false ->
   Trace.comp_issued (ChatInterface.handleSendMessage server uuid_of date_of)
     (Trace.typed (transcription d) sys)
   = [ApiOps.request_of
        (ApiOps.SendChatMessage (transcription d)
           (Some (ChatInterface.sessionId (ChatInterface.state sys))))]
   /\
   exists u r,
     Trace.transcript_after (ChatInterface.handleSendMessage server uuid_of date_of)
       (Trace.typed (transcription d) sys)
     = ChatInterface.messages (ChatInterface.state sys) ++ [u; r] /\
     Msg.type u = Msg.user /\
     Msg.content u = transcription d)
  /\
  (JsString.trim (transcription d) <> "" ->
   ChatInterface.isLoading (ChatInterface.state sys) = false ->
   Trace.comp_issued (ChatInterface.handleSendMessage server uuid_of date_of)
     (Trace.typed (transcription d) sys)
   = [ApiOps.request_of
        (ApiOps.SendChatMessage (JsString.trim (transcription d))
           (Some (ChatInterface.sessionId (ChatInterface.state sys))))]
   /\
   exists u r,
     Trace.transcript_after (ChatInterface.handleSendMessage server uuid_of date_of)
       (Trace.typed (transcription d) sys)
     = ChatInterface.messages (ChatInterface.state sys) ++ [u; r] /\
     Msg.type u = Msg.user /\
     Msg.content u = JsString.trim (transcription d))
  /\
  (JsString.trim (transcription d) = "" \/
   ChatInterface.isLoading (ChatInterface.state sys) = true ->
   Trace.comp_issued (ChatInterface.handleSendMessage server uuid_of date_of)
     (Trace.typed (transcription d) sys) = []
   /\
   Trace.transcript_after (ChatInterface.handleSendMessage server uuid_of date_of)
     (Trace.typed (transcription d) sys)
   = ChatInterface.messages (ChatInterface.state sys)).
Proof.
  intros Ht Hv Hd.
  destruct (handleAudioUrlSubmit_transcribed server uuid_of date_of URL_pathname
              sys d Ht Hv Hd) as [Hreq [pre [r [Hmsgs Hr]]]].
  assert (Htyped :
            JsString.trim (transcription d) <> "" ->
            ChatInterface.isLoading (ChatInterface.state sys) = false ->
            Trace.comp_issued (ChatInterface.handleSendMessage server uuid_of date_of)
              (Trace.typed (transcription d) sys)
            = [ApiOps.request_of
                 (ApiOps.SendChatMessage (JsString.trim (transcription d))
                    (Some (ChatInterface.sessionId (ChatInterface.state sys))))]
            /\
            exists u r,
              Trace.transcript_after
                (ChatInterface.handleSendMessage server uuid_of date_of)
                (Trace.typed (transcription d) sys)
              = ChatInterface.messages (ChatInterface.state sys) ++ [u; r] /\
              Msg.type u = Msg.user /\
              Msg.content u = JsString.trim (transcription d)).
  { intros Hne Hload.
    destruct (handleSendMessage_typed server uuid_of date_of (transcription d) sys
                Hne Hload) as [Hreq' [r' Hmsgs']].
    split; [exact Hreq'|].
    eexists; eexists. split; [exact Hmsgs'|]. split; reflexivity. }
  split; [exact Hreq|]. split; [|split; [|split]].
  - exists pre, (Trace.stamped uuid_of date_of 1 sys Msg.user (transcription d)), r.
    split; [exact Hmsgs|]. split; [reflexivity|]. split; [reflexivity|].
    destruct (Trace.transcribed_outcome server sys (transcription d)).
    + subst r. split; reflexivity.
    + exact (proj1 Hr).
  - intros Htrim Hne Hload.
    assert (Hne' : JsString.trim (transcription d) <> "") by (rewrite Htrim; exact Hne).
    destruct (Htyped Hne' Hload) as [Hq [u [r' [Hm [Hu Hc]]]]].
    rewrite Htrim in Hq, Hc.
    split; [exact Hq|]. exists u, r'. auto.
  - exact Htyped.
  - apply handleSendMessage_typed_skip.
Qed.

(** The amended C6 at work: the audio of a visit is transcribed and sent. *)
Lemma audio_transcription_is_sent_as_chat_witness :
  Trace.comp_issued
    (ChatInterface.handleAudioUrlSubmit
       (Examples.answering "I have a fever" Examples.reply)
       Examples.uuid_of Examples.date_of Examples.URL_pathname)
    Examples.audio_page
  = [ApiOps.request_of (ApiOps.TranscribeAudioFromUrl "https://example.com/visit.mp3");
     ApiOps.request_of (ApiOps.SendChatMessage "I have a fever" (Some "s-1"))]
  /\
  Trace.comp_issued
    (ChatInterface.handleSendMessage
       (Examples.answering "I have a fever" Examples.reply)
       Examples.uuid_of Examples.date_of)
    (Trace.typed "I have a fever" Examples.audio_page)
  = [ApiOps.request_of (ApiOps.SendChatMessage "I have a fever" (Some "s-1"))].
Proof.
  destruct (audio_transcription_is_sent_as_chat
              (Examples.answering "I have a fever" Examples.reply)
              Examples.uuid_of Examples.date_of Examples.URL_pathname
              Examples.audio_page {| transcription := "I have a fever" |}
              eq_refl eq_refl eq_refl) as [Haudio [_ [Htyped _]]].
  split; [exact Haudio|].
  destruct (Htyped eq_refl) as [Hreq _]; [discriminate | reflexivity | exact Hreq].
Defined.

(* ===================================================================== *)
(** ** The tools *)
(* ===================================================================== *)

(** C1: every MedicalExtraction that [extract] returns has exactly the six
    PatientIdentification fields (name, age, identification number, gender,
    phone, address): a field the reasoning service supplied keeps its value,
    a field it omitted holds the "not provided" sentinel, and an omitted
    gender holds the inferred gender or the sentinel.  No field is absent. *)
Theorem extract_populates_six_fields
        (table : list (string * MedicalTools.Gender))
        (reason_extract :
           nat -> string -> MedicalTools.ServiceFailure + MedicalTools.RawExtraction)
        (text : string) (log log' : list MedicalTools.ServiceCall)
        (e : MedicalTools.MedicalExtraction) :
  MedicalTools.extract table reason_extract text log = (Effects.Return e, log') ->
  (forall f, In f ["name"; "age"; "identification_number"; "gender"; "phone"; "address"]
             <-> is_Some (MedicalTools.patient_info e !! f))
  /\
  exists raw,
    MedicalTools.extraction_answer reason_extract text log = Some raw /\
    (forall f v,
        In f MedicalTools.patient_fields ->
        MedicalTools.raw_patient_info raw !! f = Some v ->
        MedicalTools.patient_info e !! f = Some v) /\
    (forall f,
        In f MedicalTools.patient_fields -> f <> "gender" ->
        MedicalTools.raw_patient_info raw !! f = None ->
        MedicalTools.patient_info e !! f = Some MedicalTools.NOT_PROVIDED) /\
    (MedicalTools.raw_patient_info raw !! "gender" = None ->
     MedicalTools.patient_info e !! "gender" = Some MedicalTools.NOT_PROVIDED \/
     exists g,
       MedicalTools.patient_info e !! "gender" = Some (MedicalTools.gender_value g)).
Proof.
  intros Hrun.
  pose proof (extract_answer table reason_extract text log) as Hans.
  rewrite Hrun in Hans. cbn [fst] in Hans.
  destruct (MedicalTools.extraction_answer reason_extract text log) as [raw|];
    [|discriminate].
  inversion Hans; subst e. cbn [MedicalTools.postprocess MedicalTools.patient_info].
  split.
  - intros f. rewrite complete_patient_info_lookup.
    change ["name"; "age"; "identification_number"; "gender"; "phone"; "address"]
      with MedicalTools.patient_fields.
    rewrite <- patient_field_eqb.
    destruct (String.eqb f "gender") eqn:Eg.
    + apply String.eqb_eq in Eg. subst f. split; [eauto | reflexivity].
    + destruct (existsb (String.eqb f) MedicalTools.patient_fields).
      * split; eauto.
      * split; [discriminate | intros [v Hv]; discriminate].
  - exists raw. split; [reflexivity|]. repeat split.
    + intros f v Hin Hraw. rewrite complete_patient_info_lookup.
      apply patient_field_eqb in Hin. rewrite Hin.
      unfold MedicalTools.gender_field, MedicalTools.field_or_sentinel.
      destruct (String.eqb f "gender") eqn:Eg.
      * apply String.eqb_eq in Eg. subst f. now rewrite Hraw.
      * now rewrite Hraw.
    + intros f Hin Hne Hraw. rewrite complete_patient_info_lookup.
      apply patient_field_eqb in Hin. rewrite Hin.
      apply String.eqb_neq in Hne. rewrite Hne.
      unfold MedicalTools.field_or_sentinel. now rewrite Hraw.
    + intros Hraw. rewrite complete_patient_info_lookup. cbn [String.eqb].
      change ("gender" =? "gender")%string with true. cbv iota.
      unfold MedicalTools.gender_field. rewrite Hraw.
      destruct (MedicalTools.raw_patient_info raw !! "name") as [[name|n]|];
        [|now left|now left].
      destruct (MedicalTools.infer_gender table name) as [g|]; [right; eauto | now left].
Qed.

(** C1 at work on the specification's end-to-end narrative: the service
    gives name and age only, the other fields are there all the same. *)
Lemma extract_populates_six_fields_witness :
  is_Some (MedicalTools.patient_info
             (MedicalTools.postprocess Examples.table
                {| MedicalTools.raw_symptoms := ["cough"; "fever"];
                   MedicalTools.raw_patient_info :=
                     <[ "name" := MedicalTools.VStr "Maria Rodriguez" ]>
                       {[ "age" := MedicalTools.VInt 28 ]};
                   MedicalTools.raw_reason_for_consultation :=
                     "persistent cough and fever" |})
           !! "phone")
  /\
  is_Some (MedicalTools.patient_info
             (MedicalTools.postprocess Examples.table
                {| MedicalTools.raw_symptoms := ["cough"; "fever"];
                   MedicalTools.raw_patient_info :=
                     <[ "name" := MedicalTools.VStr "Maria Rodriguez" ]>
                       {[ "age" := MedicalTools.VInt 28 ]};
                   MedicalTools.raw_reason_for_consultation :=
                     "persistent cough and fever" |})
           !! "address").
Proof.
  destruct (extract_populates_six_fields Examples.table Examples.reason_extract
              "Maria Rodriguez, 28, persistent cough and fever" []
              [MedicalTools.ExtractionPrompt
                 "Maria Rodriguez, 28, persistent cough and fever"]
              (MedicalTools.postprocess Examples.table
                 {| MedicalTools.raw_symptoms := ["cough"; "fever"];
                    MedicalTools.raw_patient_info :=
                      <[ "name" := MedicalTools.VStr "Maria Rodriguez" ]>
                        {[ "age" := MedicalTools.VInt 28 ]};
                    MedicalTools.raw_reason_for_consultation :=
                      "persistent cough and fever" |})
              eq_refl) as [Hfields _].
  split; apply Hfields; simpl; tauto.
Defined.




(** The rule on the three kinds of names. *)
Example infer_gender_cases :
  MedicalTools.infer_gender Examples.table "John Doe" = Some MedicalTools.Male
  /\ MedicalTools.infer_gender Examples.table "Alex Kim" = None
  /\ MedicalTools.infer_gender Examples.table "Xochitl" = None.
Proof. repeat split; reflexivity. Qed.

(** C3: [diagnose] on an extraction whose symptom list is empty completes
    with a [ValidationError] and leaves the log of service calls as it was:
    the external reasoning service is not invoked. *)
Theorem diagnose_rejects_empty_symptoms
        (reason_diagnose :
           nat -> MedicalTools.MedicalExtraction -> MedicalTools.ServiceFailure + string)
        (e : MedicalTools.MedicalExtraction) (log : list MedicalTools.ServiceCall) :
  MedicalTools.symptoms e = [] ->
  exists issue,
    MedicalTools.diagnose reason_diagnose e log
    = (Effects.Throw (MedicalTools.ValidationError issue), log).
Proof.
  intros Hempty. unfold MedicalTools.diagnose. rewrite Hempty.
  eexists. reflexivity.
Qed.

(** C3 at work: no call is added to an empty log. *)
Lemma diagnose_rejects_empty_symptoms_witness :
  exists issue,
    MedicalTools.diagnose Examples.reason_diagnose Examples.no_symptoms []
    = (Effects.Throw (MedicalTools.ValidationError issue), []).
Proof.
  apply (diagnose_rejects_empty_symptoms Examples.reason_diagnose
           Examples.no_symptoms []).
  reflexivity.
Defined.

(* ===================================================================== *)
(** ** Beyond the claims: the audio dialog *)
(* ===================================================================== *)

(** X1: [handleAudioUrlSubmit] on a blank URL, or on a URL that
    [validateAudioUrl] refuses, shows one dialog and does nothing else: it
    issues no request and leaves every cell of the component (transcript,
    flags, dialog, URL) as it was.  The dialog reads "Please enter an audio
    URL" for a blank URL and names the formats otherwise. *)
Theorem audio_submit_refuses_bad_url
        (server : Server) (uuid_of : nat -> string) (date_of : nat -> Z)
        (URL_pathname : string -> option string) (sys : ChatInterface.Sys) :
  (JsString.trim (ChatInterface.audioUrl (ChatInterface.state sys)) = "" ->
   ChatInterface.handleAudioUrlSubmit server uuid_of date_of URL_pathname sys =
   (Effects.Return tt,
    {| ChatInterface.state := ChatInterface.state sys;
       ChatInterface.world :=
         {| uuid_count := uuid_count (ChatInterface.world sys);
            date_count := date_count (ChatInterface.world sys);
            requests := requests (ChatInterface.world sys);
            alerts := alerts (ChatInterface.world sys) ++ ["Please enter an audio URL"];
            timers := timers (ChatInterface.world sys) |} |}))
  /\
  (JsString.trim (ChatInterface.audioUrl (ChatInterface.state sys)) <> "" ->
   ChatInterface.validateAudioUrl URL_pathname
     (ChatInterface.audioUrl (ChatInterface.state sys)) = false ->
   ChatInterface.handleAudioUrlSubmit server uuid_of date_of URL_pathname sys =
   (Effects.Return tt,
    {| ChatInterface.state := ChatInterface.state sys;
       ChatInterface.world :=
         {| uuid_count := uuid_count (ChatInterface.world sys);
            date_count := date_count (ChatInterface.world sys);
            requests := requests (ChatInterface.world sys);
            alerts := alerts (ChatInterface.world sys)
                      ++ ["Please enter a valid audio URL (MP3, WAV, M4A, OGG, FLAC, AAC)"];
            timers := timers (ChatInterface.world sys) |} |})).
Proof.
  split.
  - intros Hblank. rewrite handleAudioUrlSubmit_blank; [reflexivity|].
    now rewrite Hblank.
  - intros Hne Hbad. rewrite handleAudioUrlSubmit_invalid; [reflexivity| |exact Hbad].
    destruct (JsString.trim _); [congruence | reflexivity].
Qed.

(** X2: once past its two checks, [handleAudioUrlSubmit] completes normally
    whatever the back end answers, and always leaves the component idle: not
    processing audio, not loading, the dialog closed and its URL cleared; the
    input box and the session id are untouched and no dialog is shown. *)
Theorem audio_submit_always_settles
        (server : Server) (uuid_of : nat -> string) (date_of : nat -> Z)
        (URL_pathname : string -> option string) (sys : ChatInterface.Sys) :
  JsString.truthy (JsString.trim (ChatInterface.audioUrl (ChatInterface.state sys)))
  = true ->
  ChatInterface.validateAudioUrl URL_pathname
    (ChatInterface.audioUrl (ChatInterface.state sys)) = true ->
  exists out,
    ChatInterface.handleAudioUrlSubmit server uuid_of date_of URL_pathname sys
    = (Effects.Return tt, out) /\
    ChatInterface.isProcessingAudio (ChatInterface.state out) = false /\
    ChatInterface.isLoading (ChatInterface.state out) = false /\
    ChatInterface.showAudioUrlModal (ChatInterface.state out) = false /\
    ChatInterface.audioUrl (ChatInterface.state out) = "" /\
    ChatInterface.inputMessage (ChatInterface.state out)
    = ChatInterface.inputMessage (ChatInterface.state sys) /\
    ChatInterface.sessionId (ChatInterface.state out)
    = ChatInterface.sessionId (ChatInterface.state sys) /\
    alerts (ChatInterface.world out) = alerts (ChatInterface.world sys).
Proof.
  intros Ht Hv. eexists. split; [apply handleAudioUrlSubmit_settles; assumption|].
  repeat split; reflexivity.
Qed.

(** X2 at work: the back end is down and the component is idle again. *)
Lemma audio_submit_always_settles_witness :
  ChatInterface.isProcessingAudio
    (ChatInterface.state
       (snd (ChatInterface.handleAudioUrlSubmit (Examples.rejecting Examples.offline)
               Examples.uuid_of Examples.date_of Examples.URL_pathname
               Examples.audio_page))) = false.
Proof.
  destruct (audio_submit_always_settles (Examples.rejecting Examples.offline)
              Examples.uuid_of Examples.date_of Examples.URL_pathname
              Examples.audio_page eq_refl eq_refl) as [out [Hrun [Hidle _]]].
  rewrite Hrun. exact Hidle.
Defined.



(** X4: when the transcription request is rejected, no chat request is
    issued and nothing is recorded as a user message: the only request is
    the transcription request, and the transcript becomes the previous one
    without its system messages, followed by one error message whose text is
    "Error transcribing audio: " and the message the service layer threw.
    The notification is left as it was. *)
Theorem audio_transcription_failure
        (server : Server) (uuid_of : nat -> string) (date_of : nat -> Z)
        (URL_pathname : string -> option string) (sys : ChatInterface.Sys)
        (e : Axios.Error) :
  JsString.truthy (JsString.trim (ChatInterface.audioUrl (ChatInterface.state sys)))
  = true ->
  ChatInterface.validateAudioUrl URL_pathname
    (ChatInterface.audioUrl (ChatInterface.state sys)) = true ->
  Trace.transcription_outcome server sys = Axios.Rejected e ->
  Trace.comp_issued
    (ChatInterface.handleAudioUrlSubmit server uuid_of date_of URL_pathname) sys
  = [ApiOps.request_of
       (ApiOps.TranscribeAudioFromUrl
          (ChatInterface.audioUrl (ChatInterface.state sys)))]
  /\
  (exists err,
      Trace.transcript_after
        (ChatInterface.handleAudioUrlSubmit server uuid_of date_of URL_pathname) sys
      = List.filter Msg.not_system (ChatInterface.messages (ChatInterface.state sys))
        ++ [err] /\
      Msg.type err = Msg.error /\
      Msg.content err
      = "Error transcribing audio: " +:+ Trace.transcription_failure_text e)
  /\
  ChatInterface.notification
    (ChatInterface.state
       (snd (ChatInterface.handleAudioUrlSubmit server uuid_of date_of URL_pathname
               sys)))
  = ChatInterface.notification (ChatInterface.state sys).
Proof.
  intros Ht Hv He. unfold Trace.comp_issued, Trace.transcript_after.
  rewrite handleAudioUrlSubmit_settles by assumption.
  cbn [snd ChatInterface.state ChatInterface.world ChatInterface.messages
       ChatInterface.notification requests].
  unfold ChatControls.audio_transcript, ChatControls.audio_requests,
    ChatControls.transcribed.
  rewrite He. split; [apply drop_app_length|]. split; [|reflexivity].
  rewrite filter_not_system_snoc by reflexivity.
  eexists. split; [reflexivity|]. split; reflexivity.
Qed.

(** X4 at work: the back end is down. *)
Lemma audio_transcription_failure_witness :
  Trace.comp_issued
    (ChatInterface.handleAudioUrlSubmit (Examples.rejecting Examples.offline)
       Examples.uuid_of Examples.date_of Examples.URL_pathname)
    Examples.audio_page
  = [ApiOps.request_of (ApiOps.TranscribeAudioFromUrl "https://example.com/visit.mp3")].
Proof.
  exact (proj1 (audio_transcription_failure (Examples.rejecting Examples.offline)
                  Examples.uuid_of Examples.date_of Examples.URL_pathname
                  Examples.audio_page Examples.offline eq_refl eq_refl eq_refl)).
Defined.

(* ===================================================================== *)
(** ** Beyond the claims: the component under any sequence of events *)
(* ===================================================================== *)

(** X5: every handler lowers the busy flags it raises.  If the component is
    neither loading nor processing audio, then after any sequence of events
    (typing, keys, clicks, submissions, the notification timer), each handled
    to completion, it is again neither loading nor processing audio. *)
Theorem events_leave_component_idle
        (server : Server) (uuid_of : nat -> string) (date_of : nat -> Z)
        (URL_pathname : string -> option string)
        (evs : list ChatControls.Event) (sys : ChatInterface.Sys) :
  ChatInterface.isLoading (ChatInterface.state sys) = false ->
  ChatInterface.isProcessingAudio (ChatInterface.state sys) = false ->
  ChatInterface.isLoading
    (ChatInterface.state
       (ChatControls.run_events server uuid_of date_of URL_pathname evs sys)) = false
  /\
  ChatInterface.isProcessingAudio
    (ChatInterface.state
       (ChatControls.run_events server uuid_of date_of URL_pathname evs sys)) = false.
Proof.
  intros Hl Hp.
  destruct (run_events_keeps server uuid_of date_of URL_pathname evs sys)
    as [_ [Hl' [Hp' _]]].
  split.
  - destruct Hl' as [H|H]; [exact H | now rewrite H].
  - destruct Hp' as [H|H]; [exact H | now rewrite H].
Qed.

(** X5 at work: a session at the keyboard against a back end that is down. *)
Lemma events_leave_component_idle_witness :
  ChatInterface.isLoading
    (ChatInterface.state
       (ChatControls.run_events (Examples.rejecting Examples.offline)
          Examples.uuid_of Examples.date_of Examples.URL_pathname
          MoreExamples.session (Examples.boot (Examples.idle "")))) = false.
Proof.
  exact (proj1 (events_leave_component_idle (Examples.rejecting Examples.offline)
                  Examples.uuid_of Examples.date_of Examples.URL_pathname
                  MoreExamples.session (Examples.boot (Examples.idle ""))
                  eq_refl eq_refl)).
Defined.

(** X6: message identifiers stay unique.  If [uuidv4()] never returns the
    same value twice, then starting from an empty transcript, after any
    sequence of events no two messages of the transcript share an [id] (the
    React key of the rendered message), although the handlers filter
    messages out by id and by type. *)
Theorem events_keep_ids_unique
        (server : Server) (uuid_of : nat -> string) (date_of : nat -> Z)
        (URL_pathname : string -> option string)
        (evs : list ChatControls.Event) (sys : ChatInterface.Sys) :
  ChatControls.never_repeats uuid_of ->
  ChatInterface.messages (ChatInterface.state sys) = [] ->
  NoDup (map Msg.id
           (ChatInterface.messages
              (ChatInterface.state
                 (ChatControls.run_events server uuid_of date_of URL_pathname
                    evs sys)))).
Proof.
  intros Hinj Hempty.
  destruct (run_events_keeps server uuid_of date_of URL_pathname evs sys)
    as [_ [_ [_ [_ Hids]]]].
  apply Hids; [exact Hinj|].
  unfold ChatControls.ids_drawn. rewrite Hempty. apply drawn_nil.
Qed.

(** X6 at work: the session at the keyboard, with identifiers that never
    repeat. *)
Lemma events_keep_ids_unique_witness :
  NoDup (map Msg.id
           (ChatInterface.messages
              (ChatInterface.state
                 (ChatControls.run_events
                    (Examples.answering "I have a fever" Examples.reply)
                    MoreExamples.tally Examples.date_of Examples.URL_pathname
                    MoreExamples.session (Examples.boot (Examples.idle "")))))).
Proof.
  apply (events_keep_ids_unique (Examples.answering "I have a fever" Examples.reply)
           MoreExamples.tally Examples.date_of Examples.URL_pathname
           MoreExamples.session (Examples.boot (Examples.idle ""))).
  - exact tally_never_repeats.
  - reflexivity.
Defined.

(** X7: a component instance talks under one session id.  After any
    sequence of events the session id is the one the component started
    with, the requests issued before are still on record in order, and every
    request added is either a transcription request or a chat request built
    by [sendChatMessage] with that session id. *)
Theorem events_requests_carry_session
        (server : Server) (uuid_of : nat -> string) (date_of : nat -> Z)
        (URL_pathname : string -> option string)
        (evs : list ChatControls.Event) (sys : ChatInterface.Sys) :
  ChatInterface.sessionId
    (ChatInterface.state
       (ChatControls.run_events server uuid_of date_of URL_pathname evs sys))
  = ChatInterface.sessionId (ChatInterface.state sys)
  /\
  exists new,
    requests
      (ChatInterface.world
         (ChatControls.run_events server uuid_of date_of URL_pathname evs sys))
    = requests (ChatInterface.world sys) ++ new /\
    Forall (fun r =>
              (exists u, r = ApiOps.request_of (ApiOps.TranscribeAudioFromUrl u)) \/
              (exists m, r = ApiOps.request_of
                               (ApiOps.SendChatMessage m
                                  (Some (ChatInterface.sessionId
                                           (ChatInterface.state sys))))))
           new.
Proof.
  destruct (run_events_keeps server uuid_of date_of URL_pathname evs sys)
    as [Hsid [_ [_ [Hreq _]]]].
  split; [exact Hsid | exact Hreq].
Qed.

(** X8: the Send button and the handler agree.  When the button is enabled,
    a click appends the user message and one reply, issues one chat request
    and empties the input box.  When the button is disabled and no audio is
    being processed, a click (or Enter) changes nothing at all. *)
Theorem send_button_agrees_with_handler
        (server : Server) (uuid_of : nat -> string) (date_of : nat -> Z)
        (sys : ChatInterface.Sys) :
  (ChatControls.sendDisabled (ChatInterface.state sys) = false ->
   exists u r,
     Trace.transcript_after (ChatInterface.handleSendMessage server uuid_of date_of) sys
     = ChatInterface.messages (ChatInterface.state sys) ++ [u; r] /\
     Trace.comp_issued (ChatInterface.handleSendMessage server uuid_of date_of) sys
     = [ApiOps.request_of
          (ApiOps.SendChatMessage (Msg.content u)
             (Some (ChatInterface.sessionId (ChatInterface.state sys))))] /\
     ChatInterface.inputMessage
       (ChatInterface.state
          (snd (ChatInterface.handleSendMessage server uuid_of date_of sys))) = "")
  /\
  (ChatControls.sendDisabled (ChatInterface.state sys) = true ->
   ChatInterface.isProcessingAudio (ChatInterface.state sys) = false ->
   ChatInterface.handleSendMessage server uuid_of date_of sys = (Effects.Return tt, sys)).
Proof.
  unfold ChatControls.sendDisabled. split.
  - intros Hen. apply orb_false_elim in Hen. destruct Hen as [Hen _].
    apply orb_false_elim in Hen. destruct Hen as [Hin Hload].
    assert (Hne : JsString.trim (ChatInterface.inputMessage (ChatInterface.state sys))
                  <> "").
    { intros Heq. rewrite Heq in Hin. discriminate. }
    unfold Trace.transcript_after, Trace.comp_issued.
    rewrite handleSendMessage_run by assumption.
    cbn [snd ChatInterface.state ChatInterface.world ChatInterface.messages
         ChatInterface.inputMessage requests].
    eexists; eexists. split; [reflexivity|]. split; [apply drop_app_length | reflexivity].
  - intros Hdis Hproc. rewrite Hproc, orb_false_r in Hdis.
    apply handleSendMessage_skip.
    destruct (JsString.trim _); [now left|]. right.
    cbn in Hdis. exact Hdis.
Qed.

(** X9: what is sent is the input stripped of surrounding white space, and
    of nothing else.  When [handleSendMessage] goes ahead, the content of the
    user message it records (and of the chat request it issues) is not
    empty, neither begins nor ends with white space, and the input is that
    content between two runs of white space. *)
Theorem sent_content_is_trimmed_input
        (server : Server) (uuid_of : nat -> string) (date_of : nat -> Z)
        (sys : ChatInterface.Sys) :
  JsString.trim (ChatInterface.inputMessage (ChatInterface.state sys)) <> "" ->
  ChatInterface.isLoading (ChatInterface.state sys) = false ->
  exists u r before after first rest last,
    Trace.transcript_after (ChatInterface.handleSendMessage server uuid_of date_of) sys
    = ChatInterface.messages (ChatInterface.state sys) ++ [u; r] /\
    Trace.comp_issued (ChatInterface.handleSendMessage server uuid_of date_of) sys
    = [ApiOps.request_of
         (ApiOps.SendChatMessage (Msg.content u)
            (Some (ChatInterface.sessionId (ChatInterface.state sys))))] /\
    ChatInterface.inputMessage (ChatInterface.state sys)
    = before +:+ Msg.content u +:+ after /\
    ChatControls.all_blank before = true /\
    ChatControls.all_blank after = true /\
    Msg.content u = String first rest /\
    JsString.isWhiteSpace first = false /\
    ChatControls.last_char (Msg.content u) = Some last /\
    JsString.isWhiteSpace last = false.
Proof.
  intros Hne Hload. unfold Trace.transcript_after, Trace.comp_issued.
  rewrite handleSendMessage_run by assumption.
  cbn [snd ChatInterface.state ChatInterface.world ChatInterface.messages requests].
  destruct (trim_split (ChatInterface.inputMessage (ChatInterface.state sys)))
    as [a [b [Hsplit [Ha Hb]]]].
  destruct (trim_ends (ChatInterface.inputMessage (ChatInterface.state sys)))
    as [Hempty | [c [rest [d [Hhead [Hc [Hlast Hd]]]]]]]; [congruence|].
  exists (Trace.sent_user_message uuid_of date_of sys).
  eexists. exists a, b, c, rest, d.
  split; [reflexivity|]. split; [apply drop_app_length|].
  cbn [Trace.sent_user_message Trace.stamped Msg.content]. auto 10.
Qed.

(** X9 at work: a padded message. *)
Lemma sent_content_is_trimmed_input_witness :
  exists u r before after first rest last,
    Trace.transcript_after
      (ChatInterface.handleSendMessage (Examples.answering "" Examples.reply)
         Examples.uuid_of Examples.date_of)
      (Examples.boot (Examples.idle "  I have a cough "))
    = [u; r] /\
    Trace.comp_issued
      (ChatInterface.handleSendMessage (Examples.answering "" Examples.reply)
         Examples.uuid_of Examples.date_of)
      (Examples.boot (Examples.idle "  I have a cough "))
    = [ApiOps.request_of (ApiOps.SendChatMessage (Msg.content u) (Some "s-1"))] /\
    "  I have a cough " = before +:+ Msg.content u +:+ after /\
    ChatControls.all_blank before = true /\
    ChatControls.all_blank after = true /\
    Msg.content u = String first rest /\
    JsString.isWhiteSpace first = false /\
    ChatControls.last_char (Msg.content u) = Some last /\
    JsString.isWhiteSpace last = false.
Proof.
  apply (sent_content_is_trimmed_input (Examples.answering "" Examples.reply)
           Examples.uuid_of Examples.date_of
           (Examples.boot (Examples.idle "  I have a cough "))).
  - discriminate.
  - reflexivity.
Defined.

(* ===================================================================== *)
(** ** Beyond the claims: rendering and the URL dialog *)
(* ===================================================================== *)

(** X10: the excerpt of a sample text shown in a sample button, after the
    button's "Example N:" label, is never longer than 123 code units: a text
    of at most 120 is shown whole, a longer one is cut to its first 120 code
    units followed by "...". *)
Theorem sample_excerpt_bounds (text : string) :
  (String.length (ChatControls.sampleExcerpt text) <= 123)%nat
  /\
  ((String.length text <= 120)%nat -> ChatControls.sampleExcerpt text = text)
  /\
  ((120 < String.length text)%nat ->
   exists head tail,
     text = head +:+ tail /\ String.length head = 120%nat /\
     ChatControls.sampleExcerpt text = head +:+ "...").
Proof.
  unfold ChatControls.sampleExcerpt.
  destruct (Nat.ltb_spec 120 (String.length text)) as [Hlong|Hshort].
  - split; [|split].
    + rewrite string_length_app, slice0_length.
      change (String.length "...") with 3%nat. lia.
    + lia.
    + intros _. destruct (slice0_prefix 120 text) as [tail Htail].
      exists (ChatControls.slice0 120 text), tail.
      split; [exact Htail|]. split; [|reflexivity].
      rewrite slice0_length. lia.
  - rewrite slice0_all by exact Hshort. split; [|split].
    + rewrite string_length_app. change (String.length "") with 0%nat. lia.
    + intros _. apply append_empty_r.
    + lia.
Qed.

(** X11: the extension check ignores letter case.  A URL whose path ends in
    a dot and an extension that lower-cases to one of mp3, wav, m4a, ogg,
    flac, aac is accepted, whatever the case of the path. *)
Theorem validateAudioUrl_ignores_case
        (URL_pathname : string -> option string) (url stem ext : string) :
  URL_pathname url = Some (stem +:+ "." +:+ ext) ->
  In (JsString.toLowerCase ext) ChatInterface.audioExtensions ->
  ChatInterface.validateAudioUrl URL_pathname url = true.
Proof.
  intros Hpath Hext. unfold ChatInterface.validateAudioUrl. rewrite Hpath.
  apply existsb_exists. exists (JsString.toLowerCase ext). split; [exact Hext|].
  apply includes_spec. exists (JsString.toLowerCase stem), "".
  rewrite !toLowerCase_app, append_empty_r. reflexivity.
Qed.

(** X11 at work: an upper-case extension. *)
Lemma validateAudioUrl_ignores_case_witness :
  ChatInterface.validateAudioUrl Examples.URL_pathname
    "https://example.com/Visit.FLAC" = true.
Proof.
  apply (validateAudioUrl_ignores_case Examples.URL_pathname
           "https://example.com/Visit.FLAC" "/Visit" "FLAC").
  - reflexivity.
  - simpl. tauto.
Defined.

(** X12: cancelling the URL dialog undoes opening it.  From a component
    whose dialog is closed and whose URL cell is empty, opening the dialog,
    typing any URL and then cancelling (the Cancel button, the overlay, or
    the Escape key) gives back exactly the component and the world one
    started from: no request, no dialog, no message. *)
Theorem cancel_restores_component
        (server : Server) (uuid_of : nat -> string) (date_of : nat -> Z)
        (URL_pathname : string -> option string)
        (typed_url : string) (sys : ChatInterface.Sys) :
  ChatInterface.showAudioUrlModal (ChatInterface.state sys) = false ->
  ChatInterface.audioUrl (ChatInterface.state sys) = "" ->
  ChatControls.run_events server uuid_of date_of URL_pathname
    [ChatControls.ClickAudio; ChatControls.ChangeUrl typed_url; ChatControls.ClickCancel]
    sys = sys
  /\
  ChatControls.run_events server uuid_of date_of URL_pathname
    [ChatControls.ClickAudio; ChatControls.ChangeUrl typed_url;
     ChatControls.UrlKeyDown
       {| ChatControls.key := "Escape"; ChatControls.shiftKey := false |}]
    sys = sys.
Proof.
  intros Hclosed Hurl. destruct sys as [st w]. destruct st. destruct w.
  cbn in Hclosed, Hurl. subst. split; reflexivity.
Qed.

(** X12 at work: a URL is typed and the dialog dismissed. *)
Lemma cancel_restores_component_witness :
  ChatControls.run_events (Examples.rejecting Examples.offline)
    Examples.uuid_of Examples.date_of Examples.URL_pathname
    [ChatControls.ClickAudio;
     ChatControls.ChangeUrl "https://example.com/visit.mp3";
     ChatControls.ClickCancel]
    (Examples.boot (Examples.idle "half a sentence"))
  = Examples.boot (Examples.idle "half a sentence").
Proof.
  exact (proj1 (cancel_restores_component (Examples.rejecting Examples.offline)
                  Examples.uuid_of Examples.date_of Examples.URL_pathname
                  "https://example.com/visit.mp3"
                  (Examples.boot (Examples.idle "half a sentence"))
                  eq_refl eq_refl)).
Defined.

(* ===================================================================== *)
(** ** Beyond the claims: the service layer as a whole *)
(* ===================================================================== *)


(* ===================================================================== *)
(** ** Beyond the claims: the status page *)
(* ===================================================================== *)

(** X14: [checkBackendConnection] never throws and shows no dialog.  The
    back end counts as connected afterwards exactly when both the health
    check and the status request were fulfilled; a status request that fails
    after a healthy check marks it disconnected and keeps the status shown
    before.  The status request is issued only after a fulfilled health
    check.  The active tab and the session panel are not touched. *)
Theorem check_backend_connection_outcomes (server : Server) (p : StatusPage.Page) :
  exists out,
    StatusPage.checkBackendConnection server p = (Effects.Return tt, out) /\
    StatusPage.panel out = StatusPage.panel p /\
    StatusPage.activeTab (StatusPage.app out)
    = StatusPage.activeTab (StatusPage.app p) /\
    alerts (StatusPage.world out) = alerts (StatusPage.world p) /\
    match StatusPage.health_outcome server p with
    | Axios.Rejected _ =>
        StatusPage.isBackendConnected (StatusPage.app out) = false /\
        StatusPage.systemStatus (StatusPage.app out)
        = StatusPage.systemStatus (StatusPage.app p) /\
        StatusPage.page_issued (StatusPage.checkBackendConnection server) p
        = [ApiOps.request_of ApiOps.HealthCheck]
    | Axios.Fulfilled _ =>
        StatusPage.page_issued (StatusPage.checkBackendConnection server) p
        = [ApiOps.request_of ApiOps.HealthCheck; ApiOps.request_of ApiOps.GetStatus] /\
        match StatusPage.status_outcome server p with
        | Axios.Fulfilled status =>
            StatusPage.isBackendConnected (StatusPage.app out) = true /\
            StatusPage.systemStatus (StatusPage.app out) = Some status
        | Axios.Rejected _ =>
            StatusPage.isBackendConnected (StatusPage.app out) = false /\
            StatusPage.systemStatus (StatusPage.app out)
            = StatusPage.systemStatus (StatusPage.app p)
        end
    end.
Proof.
  eexists. split; [apply checkBackendConnection_run|].
  unfold StatusPage.page_issued. rewrite checkBackendConnection_run. cbn [snd].
  destruct (StatusPage.health_outcome server p).
  - cbn. split; [reflexivity|]. split; [reflexivity|]. split; [reflexivity|].
    split.
    + rewrite <- app_assoc. apply drop_app_length.
    + destruct (StatusPage.status_outcome server p); split; reflexivity.
  - cbn. repeat split; try reflexivity. apply drop_app_length.
Qed.

(** X15: [loadSessions] never throws, shows no dialog, issues exactly the
    session-list request and always ends with [isLoadingSessions] false.
    When the request is fulfilled the panel holds the body and the time of
    the update; when it is rejected the panel keeps the list and the time it
    showed before.  The [App] cells are not touched. *)
Theorem load_sessions_outcomes
        (server : Server) (date_of : nat -> Z) (p : StatusPage.Page) :
  exists out,
    StatusPage.loadSessions server date_of p = (Effects.Return tt, out) /\
    StatusPage.isLoadingSessions (StatusPage.panel out) = false /\
    StatusPage.app out = StatusPage.app p /\
    alerts (StatusPage.world out) = alerts (StatusPage.world p) /\
    StatusPage.page_issued (StatusPage.loadSessions server date_of) p
    = [ApiOps.request_of ApiOps.GetSessions] /\
    match StatusPage.sessions_outcome server p with
    | Axios.Fulfilled body =>
        StatusPage.sessions (StatusPage.panel out) = Some body /\
        StatusPage.lastUpdated (StatusPage.panel out)
        = date_of (date_count (StatusPage.world p))
    | Axios.Rejected _ =>
        StatusPage.sessions (StatusPage.panel out)
        = StatusPage.sessions (StatusPage.panel p) /\
        StatusPage.lastUpdated (StatusPage.panel out)
        = StatusPage.lastUpdated (StatusPage.panel p)
    end.
Proof.
  eexists. split; [apply loadSessions_run|].
  unfold StatusPage.page_issued. rewrite loadSessions_run. cbn [snd].
  destruct (StatusPage.sessions_outcome server p); cbn;
    repeat split; try reflexivity; apply drop_app_length.
Qed.

(** X16: the delete button of a session card, wired to
    [checkBackendConnection] as in [App].  It never throws.  When the user
    declines the confirmation nothing happens at all.  When the DELETE
    request is rejected, that is the only request; one dialog is shown,
    "Failed to delete session: " followed by the message of what the service
    layer threw, and the page keeps what it showed.  That message is
    "Failed to delete session: " and the error detail of the body (the
    transport's message when the detail is missing or empty), the TypeError
    of the read when the body is [null], and "Network error: " and the
    transport's message when no response came.  When the DELETE request is
    fulfilled no dialog is shown, even if a refresh fails: the session list,
    the health check and, only after a fulfilled health check, the status
    are requested in this order, and the panel ends not loading. *)
Theorem delete_session_outcomes
        (server : Server) (date_of : nat -> Z) (window_confirm : string -> bool)
        (sessionId : string) (p : StatusPage.Page) :
  exists out,
    StatusPage.deleteSessionClicked server date_of window_confirm sessionId p
    = (Effects.Return tt, out) /\
    if window_confirm "Are you sure you want to delete this session?" then
      match StatusPage.delete_outcome server sessionId p with
      | Axios.Rejected e =>
          alerts (StatusPage.world out)
          = alerts (StatusPage.world p)
            ++ ["Failed to delete session: " +:+
                  match Axios.response e with
                  | Some resp =>
                      match Axios.data_error resp with
                      | Axios.Detail detail =>
                          "Failed to delete session: " +:+
                            match detail with
                            | Some text =>
                                if JsString.truthy text then text else Axios.message e
                            | None => Axios.message e
                            end
                      | Axios.Unreadable type_error => type_error
                      end
                  | None => "Network error: " +:+ Axios.message e
                  end] /\
          StatusPage.page_issued
            (StatusPage.deleteSessionClicked server date_of window_confirm sessionId) p
          = [ApiOps.request_of (ApiOps.DeleteSession sessionId)] /\
          StatusPage.app out = StatusPage.app p /\
          StatusPage.panel out = StatusPage.panel p
      | Axios.Fulfilled _ =>
          alerts (StatusPage.world out) = alerts (StatusPage.world p) /\
          StatusPage.isLoadingSessions (StatusPage.panel out) = false /\
          exists rest,
            StatusPage.page_issued
              (StatusPage.deleteSessionClicked server date_of window_confirm sessionId)
              p
            = ApiOps.request_of (ApiOps.DeleteSession sessionId)
              :: ApiOps.request_of ApiOps.GetSessions
              :: ApiOps.request_of ApiOps.HealthCheck :: rest /\
            (rest = [] /\ StatusPage.isBackendConnected (StatusPage.app out) = false \/
             rest = [ApiOps.request_of ApiOps.GetStatus])
      end
    else out = p.
Proof.
  eexists. split; [apply deleteSessionClicked_run|].
  unfold StatusPage.page_issued. rewrite deleteSessionClicked_run. cbn [snd].
  destruct (window_confirm _); [|reflexivity].
  destruct (StatusPage.delete_outcome server sessionId p) as [d|e].
  - rewrite loadSessions_run. cbn [snd].
    rewrite checkBackendConnection_run. cbn [snd].
    set (p1 := StatusPage.after_delete sessionId p).
    destruct (StatusPage.sessions_outcome server p1);
      match goal with
      | |- context [StatusPage.health_outcome server ?q] =>
          destruct (StatusPage.health_outcome server q)
      end;
      cbn -[ApiOps.request_of];
      (split; [reflexivity|]); (split; [reflexivity|]);
      eexists; rewrite <- ?app_assoc;
      (split; [apply drop_app_length|]);
      try (right; reflexivity); left; split; reflexivity.
  - cbn -[ApiOps.request_of String.append ApiOps.failure_text].
    split; [|repeat split; try reflexivity; apply drop_app_length].
    unfold ApiOps.failure_text. cbn [ApiOps.plain_catch ApiOps.failure_prefix].
    destruct (Axios.response e) as [resp|]; [|reflexivity].
    destruct (Axios.data_error resp) as [[text|]|m]; reflexivity.
Qed.

(** X17: on two valid dates whose difference is a safe integer,
    [formatUptime] splits the elapsed time into whole hours and minutes.
    From one hour on it prints the hours and the remaining minutes (below
    60); under an hour it prints the minutes alone, seconds being dropped.
    A start date in the future is not clamped: it prints a negative number
    of minutes. *)
Theorem formatUptime_hours_minutes (now start h m ms : Z) :
  StatusPage.valid_date now = true ->
  StatusPage.valid_date start = true ->
  StatusPage.safe_integer (now - start) = true ->
  (0 <= m < 60)%Z -> (0 <= ms < 60000)%Z ->
  ((0 < h)%Z -> (now - start = h * 3600000 + m * 60000 + ms)%Z ->
   StatusPage.formatUptime now start
   = Some (StatusPage.show h +:+ "h " +:+ StatusPage.show m +:+ "m"))
  /\
  ((now - start = m * 60000 + ms)%Z ->
   StatusPage.formatUptime now start = Some (StatusPage.show m +:+ "m"))
  /\
  ((0 < h)%Z -> (now - start = - h * 60000 + ms)%Z ->
   StatusPage.formatUptime now start = Some (StatusPage.show (- h) +:+ "m")).
Proof.
  intros Hnow Hstart Hsafe Hm Hms. unfold StatusPage.formatUptime.
  rewrite Hnow, Hstart, Hsafe. cbn [andb]. cbv zeta. split; [|split].
  - intros Hh ->.
    replace (h * 3600000 + m * 60000 + ms)%Z
      with ((60 * h + m) * 60000 + ms)%Z by ring.
    rewrite Z.div_add_l by lia. rewrite (Z.div_small ms) by lia.
    rewrite Z.add_0_r.
    replace (60 * h + m)%Z with (h * 60 + m)%Z by ring.
    rewrite Z.div_add_l by lia. rewrite (Z.div_small m) by lia.
    rewrite Z.add_0_r.
    destruct (Z.ltb_spec 0 h) as [_|Hle]; [|lia].
    rewrite Z.rem_mod_nonneg by lia.
    rewrite Z.add_comm, Z.mod_add by lia. rewrite Z.mod_small by lia.
    reflexivity.
  - intros ->.
    rewrite Z.div_add_l by lia. rewrite (Z.div_small ms) by lia.
    rewrite Z.add_0_r. rewrite (Z.div_small m) by lia.
    reflexivity.
  - intros Hh ->.
    rewrite Z.div_add_l by lia. rewrite (Z.div_small ms) by lia.
    rewrite Z.add_0_r.
    destruct (Z.ltb_spec 0 (- h / 60)) as [Hpos|_]; [|reflexivity].
    exfalso. assert (- h / 60 < 0)%Z by (apply Z.div_lt_upper_bound; lia). lia.
Qed.

(** X17 at work: two hours, five minutes and some seconds. *)
Lemma formatUptime_hours_minutes_witness :
  StatusPage.formatUptime 1762000000000 1761992458000 = Some "2h 5m".
Proof.
  destruct (formatUptime_hours_minutes 1762000000000 1761992458000 2 5 42000)
    as [Hhours _]; [reflexivity | reflexivity | reflexivity | lia | lia |].
  apply Hhours; [lia | reflexivity].
Defined.

(** X18: what [App] shows.  The chat is rendered only while the back end is
    connected and the chat tab is active; the status tab is never disabled
    and always renders the status panel with the current status and
    connection flag; with the chat tab active and the back end disconnected
    the connection error is shown and the chat tab is disabled. *)
Theorem main_view_gating (a : StatusPage.AppState) :
  (StatusPage.mainView a = StatusPage.ChatView ->
   StatusPage.isBackendConnected a = true /\ StatusPage.activeTab a = "chat")
  /\
  (StatusPage.activeTab a = "status" ->
   StatusPage.mainView a
   = StatusPage.StatusView (StatusPage.systemStatus a) (StatusPage.isBackendConnected a))
  /\
  StatusPage.tabDisabled a "status" = false
  /\
  (StatusPage.activeTab a = "chat" -> StatusPage.isBackendConnected a = false ->
   StatusPage.mainView a = StatusPage.ConnectionError /\
   StatusPage.tabDisabled a "chat" = true)
  /\
  (StatusPage.activeTab a = "chat" -> StatusPage.isBackendConnected a = true ->
   StatusPage.mainView a = StatusPage.ChatView /\
   StatusPage.tabDisabled a "chat" = false).
Proof.
  unfold StatusPage.mainView, StatusPage.renderActiveComponent, StatusPage.tabDisabled,
    StatusPage.tabs.
  destruct a as [tab status connected]. cbn [StatusPage.activeTab
    StatusPage.systemStatus StatusPage.isBackendConnected List.find].
  split; [|split; [|split; [|split]]].
  - destruct connected; cbn [negb andb].
    + destruct (String.eqb "chat" tab) eqn:Ec.
      * apply String.eqb_eq in Ec. subst tab. intros _. split; reflexivity.
      * destruct (String.eqb "status" tab) eqn:Es; [|discriminate].
        apply String.eqb_eq in Es. subst tab. discriminate.
    + destruct (String.eqb tab "status") eqn:Es; cbn [negb]; [|discriminate].
      apply String.eqb_eq in Es. subst tab. discriminate.
  - intros ->. destruct connected; reflexivity.
  - destruct connected; reflexivity.
  - intros -> ->. split; reflexivity.
  - intros -> ->. split; reflexivity.
Qed.
